(** * Task lifecycle and billing ledger of captcha_solver

    A shallow embedding of the billing core of the service:
    - [domain/value_objects/enums.py], [domain/entities/task.py],
      [domain/entities/transaction.py], [domain/exceptions.py];
    - [infrastructure/database/repositories/*.py] over the tables of
      [infrastructure/database/models.py];
    - [application/services/billing_service.py] and [task_service.py];
    - the refund route of [api/v1/routes/task.py];
    - the sliding-window script of [infrastructure/cache/rate_limiter.py].

    Conventions.  A [Decimal] amount is an integer number of units of 10^-4,
    the scale of the [Numeric(12, 4)] columns; the 12-digit precision bound of
    the columns is not modelled.  A [UUID] is its canonical text, which is what
    [str()] yields.  The two sources of nondeterminism, [uuid4()] and
    [datetime.utcnow()], are read from an explicit environment. *)

From Stdlib Require Import ZArith QArith Qround Lqa Lia.
From stdpp Require Import base option list strings gmap.

Local Open Scope string_scope.
Local Open Scope Z_scope.

Abbreviation UUID := string (only parsing).

(** ** Value objects: [domain/value_objects/enums.py] *)

Inductive TaskType : Type :=
  | RECAPTCHA_V2
  | RECAPTCHA_V2_INVISIBLE
  | RECAPTCHA_V3
  | HCAPTCHA.

Inductive TaskStatus : Type :=
  | PENDING
  | PROCESSING
  | READY
  | FAILED.

Inductive TransactionType : Type :=
  | DEPOSIT
  | DEDUCT
  | REFUND
  | BONUS.

#[global] Instance TaskType_eq_dec : EqDecision TaskType.
Proof. solve_decision. Defined.

#[global] Instance TaskStatus_eq_dec : EqDecision TaskStatus.
Proof. solve_decision. Defined.

#[global] Instance TransactionType_eq_dec : EqDecision TransactionType.
Proof. solve_decision. Defined.

Module TaskStatus.

(** The [.value] of a member. *)
Definition value (self : TaskStatus) : string :=
  match self with
  | PENDING => "pending"
  | PROCESSING => "processing"
  | READY => "ready"
  | FAILED => "failed"
  end.

Definition is_terminal (self : TaskStatus) : bool :=
  bool_decide (self = READY) || bool_decide (self = FAILED).

(** The table [allowed_transitions], one row per state. *)
Definition allowed_transitions (self : TaskStatus) : list TaskStatus :=
  match self with
  | PENDING => [PROCESSING; FAILED]
  | PROCESSING => [READY; FAILED]
  | READY => []
  | FAILED => []
  end.

Definition can_transition_to (self target : TaskStatus) : bool :=
  bool_decide (target ∈ allowed_transitions self).

End TaskStatus.

(** ** Exceptions: [domain/exceptions.py] and the two raised by the libraries *)

Inductive Exn : Type :=
  | EntityNotFoundError (entity_type entity_id : string)
  | InvalidStateTransitionError (from_state to_state : string)
  | InsufficientBalanceError (required available : Z)
  | RefundAlreadyProcessedError (task_id : string)
  | IntegrityError
  | ValueError (message : string).

(** ** The environment: what [uuid4()] and [datetime.utcnow()] return *)

Record Env : Type := {
  uuid4 : UUID;
  utcnow : Z
}.

(** ** Entities: [domain/entities/task.py], [transaction.py], [user.py]

    The ORM rows of [models.py] carry the same columns as the entities and
    [_to_entity] / [_to_model] copy them field by field, so one record serves
    for both. *)

Record Task : Type := {
  task_id : UUID;
  task_user_id : UUID;
  task_type : TaskType;
  status : TaskStatus;
  website_url : option string;
  website_key : string;
  website_domain : option string;
  is_enterprise : bool;
  token : option string;
  cost : Z;
  error_code : option string;
  error_desc : option string;
  retry_count : Z;
  task_created_at : Z;
  started_at : option Z;
  completed_at : option Z
}.

Record Transaction : Type := {
  tx_id : UUID;
  tx_user_id : UUID;
  tx_type : TransactionType;
  amount : Z;
  balance_after : Z;
  reference_id : string;
  reference_type : string;
  description : option string;
  tx_created_at : Z
}.

Record User : Type := {
  user_id : UUID;
  email : string;
  hashed_password : string;
  hashed_api_key : option string;
  api_key_prefix : option string;
  balance : Z;
  is_active : bool;
  is_superuser : bool;
  is_verified : bool;
  user_created_at : Z;
  last_login_at : option Z
}.

Module Task.

(** [self.id], under a name no parameter hides. *)
Definition id (self : Task) : UUID := task_id self.

Definition set_status (self : Task) (s : TaskStatus) : Task :=
  {| task_id := task_id self; task_user_id := task_user_id self;
     task_type := task_type self; status := s;
     website_url := website_url self; website_key := website_key self;
     website_domain := website_domain self;
     is_enterprise := is_enterprise self; token := token self;
     cost := cost self; error_code := error_code self;
     error_desc := error_desc self; retry_count := retry_count self;
     task_created_at := task_created_at self;
     started_at := started_at self; completed_at := completed_at self |}.

Definition set_started_at (self : Task) (t : option Z) : Task :=
  {| task_id := task_id self; task_user_id := task_user_id self;
     task_type := task_type self; status := status self;
     website_url := website_url self; website_key := website_key self;
     website_domain := website_domain self;
     is_enterprise := is_enterprise self; token := token self;
     cost := cost self; error_code := error_code self;
     error_desc := error_desc self; retry_count := retry_count self;
     task_created_at := task_created_at self;
     started_at := t; completed_at := completed_at self |}.

Definition set_completed_at (self : Task) (t : option Z) : Task :=
  {| task_id := task_id self; task_user_id := task_user_id self;
     task_type := task_type self; status := status self;
     website_url := website_url self; website_key := website_key self;
     website_domain := website_domain self;
     is_enterprise := is_enterprise self; token := token self;
     cost := cost self; error_code := error_code self;
     error_desc := error_desc self; retry_count := retry_count self;
     task_created_at := task_created_at self;
     started_at := started_at self; completed_at := t |}.

Definition set_token (self : Task) (t : option string) : Task :=
  {| task_id := task_id self; task_user_id := task_user_id self;
     task_type := task_type self; status := status self;
     website_url := website_url self; website_key := website_key self;
     website_domain := website_domain self;
     is_enterprise := is_enterprise self; token := t;
     cost := cost self; error_code := error_code self;
     error_desc := error_desc self; retry_count := retry_count self;
     task_created_at := task_created_at self;
     started_at := started_at self; completed_at := completed_at self |}.

Definition set_cost (self : Task) (c : Z) : Task :=
  {| task_id := task_id self; task_user_id := task_user_id self;
     task_type := task_type self; status := status self;
     website_url := website_url self; website_key := website_key self;
     website_domain := website_domain self;
     is_enterprise := is_enterprise self; token := token self;
     cost := c; error_code := error_code self;
     error_desc := error_desc self; retry_count := retry_count self;
     task_created_at := task_created_at self;
     started_at := started_at self; completed_at := completed_at self |}.

Definition set_error_code (self : Task) (c : option string) : Task :=
  {| task_id := task_id self; task_user_id := task_user_id self;
     task_type := task_type self; status := status self;
     website_url := website_url self; website_key := website_key self;
     website_domain := website_domain self;
     is_enterprise := is_enterprise self; token := token self;
     cost := cost self; error_code := c;
     error_desc := error_desc self; retry_count := retry_count self;
     task_created_at := task_created_at self;
     started_at := started_at self; completed_at := completed_at self |}.

Definition set_error_desc (self : Task) (d : option string) : Task :=
  {| task_id := task_id self; task_user_id := task_user_id self;
     task_type := task_type self; status := status self;
     website_url := website_url self; website_key := website_key self;
     website_domain := website_domain self;
     is_enterprise := is_enterprise self; token := token self;
     cost := cost self; error_code := error_code self;
     error_desc := d; retry_count := retry_count self;
     task_created_at := task_created_at self;
     started_at := started_at self; completed_at := completed_at self |}.

(** [Task.create]: a new task is PENDING, unbilled and has no result. *)
Definition create (e : Env) (user_id : UUID) (task_type : TaskType)
    (website_key : string) (website_url website_domain : option string)
    (is_enterprise : bool) : Task :=
  {| task_id := uuid4 e; task_user_id := user_id; task_type := task_type;
     status := PENDING; website_url := website_url;
     website_key := website_key; website_domain := website_domain;
     is_enterprise := is_enterprise; token := None; cost := 0;
     error_code := None; error_desc := None; retry_count := 0;
     task_created_at := utcnow e; started_at := None;
     completed_at := None |}.

(** [transition_to] raises before it assigns, so a refused transition
    leaves [self] as it was. *)
Definition transition_to (self : Task) (new_status : TaskStatus)
    : Exn + Task :=
  if negb (TaskStatus.can_transition_to (status self) new_status)
  then inl (InvalidStateTransitionError (TaskStatus.value (status self))
                                        (TaskStatus.value new_status))
  else inr (set_status self new_status).

Definition start_processing (e : Env) (self : Task) : Exn + Task :=
  match transition_to self PROCESSING with
  | inl x => inl x
  | inr t => inr (set_started_at t (Some (utcnow e)))
  end.

Definition complete (e : Env) (self : Task) (token : string) (cost : Z)
    : Exn + Task :=
  match transition_to self READY with
  | inl x => inl x
  | inr t =>
      inr (set_completed_at (set_cost (set_token t (Some token)) cost)
                            (Some (utcnow e)))
  end.

Definition fail (e : Env) (self : Task) (error_code : string)
    (error_desc : option string) : Exn + Task :=
  match transition_to self FAILED with
  | inl x => inl x
  | inr t =>
      inr (set_completed_at
             (set_error_desc (set_error_code t (Some error_code)) error_desc)
             (Some (utcnow e)))
  end.

Definition set_retry_count (self : Task) (n : Z) : Task :=
  {| task_id := task_id self; task_user_id := task_user_id self;
     task_type := task_type self; status := status self;
     website_url := website_url self; website_key := website_key self;
     website_domain := website_domain self;
     is_enterprise := is_enterprise self; token := token self;
     cost := cost self; error_code := error_code self;
     error_desc := error_desc self; retry_count := n;
     task_created_at := task_created_at self;
     started_at := started_at self; completed_at := completed_at self |}.

Definition increment_retry (self : Task) : Task :=
  set_retry_count self (retry_count self + 1).

(** [bool(self.website_domain and self.website_key)]: both non-empty. *)
Definition is_sitekey_mode (self : Task) : bool :=
  match website_domain self with
  | Some d => negb (bool_decide (d = "")) &&
              negb (bool_decide (website_key self = ""))
  | None => false
  end.

End Task.

Module Transaction.

Definition create_deduct (e : Env) (user_id : UUID) (amount : Z)
    (balance_after : Z) (task_id : string) (description : option string)
    : Transaction :=
  {| tx_id := uuid4 e; tx_user_id := user_id; tx_type := DEDUCT;
     amount := - Z.abs amount; balance_after := balance_after;
     reference_id := task_id; reference_type := "TASK";
     description := description; tx_created_at := utcnow e |}.

Definition create_refund (e : Env) (user_id : UUID) (amount : Z)
    (balance_after : Z) (task_id : string) (description : option string)
    : Transaction :=
  {| tx_id := uuid4 e; tx_user_id := user_id; tx_type := REFUND;
     amount := Z.abs amount; balance_after := balance_after;
     reference_id := task_id; reference_type := "TASK_REFUND";
     description := description; tx_created_at := utcnow e |}.

Definition create_deposit (e : Env) (user_id : UUID) (amount : Z)
    (balance_after : Z) (payment_id : string) (description : option string)
    : Transaction :=
  {| tx_id := uuid4 e; tx_user_id := user_id; tx_type := DEPOSIT;
     amount := Z.abs amount; balance_after := balance_after;
     reference_id := payment_id; reference_type := "PAYMENT";
     description := description; tx_created_at := utcnow e |}.

End Transaction.

Module User.

Definition set_balance (self : User) (b : Z) : User :=
  {| user_id := user_id self; email := email self;
     hashed_password := hashed_password self;
     hashed_api_key := hashed_api_key self;
     api_key_prefix := api_key_prefix self; balance := b;
     is_active := is_active self; is_superuser := is_superuser self;
     is_verified := is_verified self;
     user_created_at := user_created_at self;
     last_login_at := last_login_at self |}.

Definition can_afford (self : User) (amount : Z) : bool :=
  amount <=? balance self.

End User.

(** ** Settings: [config/settings.py]

    [price_per_task] is derived there from a float; the services turn it into
    a [Decimal] once, and that amount is what the record holds. *)

Record Settings : Type := {
  price_per_task : Z;
  rate_limit_per_minute : Z
}.

(** ** The database and the session

    Three tables of [models.py].  [users] and [tasks] are keyed by their
    primary key; [transactions] keeps the rows in insertion order.  A session
    sees its own uncommitted writes in [working]; every other caller sees
    [committed] only. *)

Record Db : Type := {
  users : gmap string User;
  tasks : gmap string Task;
  transactions : list Transaction
}.

Record Session : Type := {
  committed : Db;
  working : Db
}.

Definition set_users (db : Db) (us : gmap string User) : Db :=
  {| users := us; tasks := tasks db; transactions := transactions db |}.

Definition set_tasks (db : Db) (ts : gmap string Task) : Db :=
  {| users := users db; tasks := ts; transactions := transactions db |}.

Definition set_transactions (db : Db) (txs : list Transaction) : Db :=
  {| users := users db; tasks := tasks db; transactions := txs |}.

Definition set_working (s : Session) (db : Db) : Session :=
  {| committed := committed s; working := db |}.

(** Code that reads and writes through a session and may raise. *)
Definition M (A : Type) : Type := Session → (Exn + A) * Session.

#[global] Instance M_ret : MRet M := λ A a s, (inr a, s).

#[global] Instance M_bind : MBind M := λ A B k m s,
  match m s with
  | (inl x, s') => (inl x, s')
  | (inr a, s') => k a s'
  end.

Definition raise {A : Type} (x : Exn) : M A := λ s, (inl x, s).

(** [try: body except Exception as x: handler x]. *)
Definition try_except {A : Type} (body : M A) (handler : Exn → M A) : M A :=
  λ s, match body s with
       | (inl x, s') => handler x s'
       | (inr a, s') => (inr a, s')
       end.

Module session.

Definition commit : M unit :=
  λ s, (inr (), {| committed := working s; working := working s |}).

Definition rollback : M unit :=
  λ s, (inr (), {| committed := committed s; working := committed s |}).

(** A request opens a session on the current database, runs, and closes it:
    what was not committed is lost. *)
Definition run {A : Type} (m : M A) (db : Db) : (Exn + A) * Db :=
  let '(r, s) := m {| committed := db; working := db |} in
  (r, committed s).

End session.

(** The constraints of the [transactions] table: primary key, foreign key to
    [users], and [uq_transactions_ref] on (reference_id, reference_type). *)
Definition same_ref (t u : Transaction) : bool :=
  bool_decide (reference_id t = reference_id u) &&
  bool_decide (reference_type t = reference_type u).

Definition violates_constraints (db : Db) (t : Transaction) : bool :=
  existsb (λ u, bool_decide (tx_id u = tx_id t)) (transactions db) ||
  existsb (same_ref t) (transactions db) ||
  bool_decide (users db !! tx_user_id t = None).

(** [session.add(model); await session.flush()].  A failed flush rolls the
    database transaction back before the error reaches the caller. *)
Definition add_and_flush (t : Transaction) : M unit :=
  λ s, if violates_constraints (working s) t
       then (inl IntegrityError, set_working s (committed s))
       else (inr (),
             set_working s
               (set_transactions (working s) (transactions (working s) ++ [t]))).

Module UserRepository.

Definition get_by_id (user_id : UUID) : M (option User) :=
  λ s, (inr (users (working s) !! user_id), s).

(** The WHERE clause besides the id: a debit needs [balance >= abs(amount)]. *)
Definition balance_suffices (amount : Z) (u : User) : bool :=
  if amount <? 0 then Z.abs amount <=? balance u else true.

(** One UPDATE ... RETURNING statement; [None] when no row matched. *)
Definition update_balance_atomic (user_id : UUID) (amount : Z)
    : M (option Z) :=
  λ s, match users (working s) !! user_id with
       | Some u =>
           if balance_suffices amount u
           then
             let u' := User.set_balance u (balance u + amount) in
             (inr (Some (balance u')),
              set_working s
                (set_users (working s) (<[user_id := u']> (users (working s)))))
           else (inr None, s)
       | None => (inr None, s)
       end.

End UserRepository.

Module TaskRepository.

Definition get_by_id (task_id : UUID) : M (option Task) :=
  λ s, (inr (tasks (working s) !! task_id), s).

Definition get_by_id_and_user (task_id user_id : UUID) : M (option Task) :=
  λ s, (inr (match tasks (working s) !! task_id with
             | Some t =>
                 if bool_decide (task_user_id t = user_id)
                 then Some t else None
             | None => None
             end), s).

(** [save]: insert under the primary key, with the foreign key to users. *)
Definition save (task : Task) : M Task :=
  λ s, if bool_decide (is_Some (tasks (working s) !! task_id task)) ||
          bool_decide (users (working s) !! task_user_id task = None)
       then (inl IntegrityError, set_working s (committed s))
       else (inr task,
             set_working s
               (set_tasks (working s)
                  (<[task_id task := task]> (tasks (working s))))).

(** The [values] dictionary of [update_status], applied to a row. *)
Definition apply_values (e : Env) (status : TaskStatus)
    (token : option string) (cost : option Z)
    (error_code error_desc : option string) (row : Task) : Task :=
  let r0 := Task.set_status row status in
  let r1 := if bool_decide (status = PROCESSING)
            then Task.set_started_at r0 (Some (utcnow e)) else r0 in
  let r2 := if bool_decide (status = READY) || bool_decide (status = FAILED)
            then Task.set_completed_at r1 (Some (utcnow e)) else r1 in
  let r3 := match token with
            | Some t => Task.set_token r2 (Some t)
            | None => r2
            end in
  let r4 := match cost with
            | Some c => Task.set_cost r3 c
            | None => r3
            end in
  let r5 := match error_code with
            | Some c => Task.set_error_code r4 (Some c)
            | None => r4
            end in
  match error_desc with
  | Some d => Task.set_error_desc r5 (Some d)
  | None => r5
  end.

(** UPDATE tasks SET ... WHERE id = task_id; the result is [rowcount > 0].
    The statement has no condition on the current status. *)
Definition update_status (e : Env) (task_id : UUID) (status : TaskStatus)
    (token : option string) (cost : option Z)
    (error_code error_desc : option string) : M bool :=
  λ s, match tasks (working s) !! task_id with
       | Some row =>
           let row' :=
             apply_values e status token cost error_code error_desc row in
           (inr true,
            set_working s
              (set_tasks (working s)
                 (<[task_id := row']> (tasks (working s)))))
       | None => (inr false, s)
       end.

End TaskRepository.

Module TransactionRepository.

Definition save (transaction : Transaction) : M Transaction :=
  add_and_flush transaction ;; mret transaction.

Definition save_idempotent (transaction : Transaction) : M bool :=
  try_except
    (add_and_flush transaction ;; mret true)
    (λ x, match x with
          | IntegrityError => session.rollback ;; mret false
          | _ => raise x
          end).

End TransactionRepository.

(** [description or default]: [None] and the empty string both give way. *)
Definition or_default (description : option string) (default : string)
    : string :=
  match description with
  | Some d => if bool_decide (d = "") then default else d
  | None => default
  end.

(** ** [application/services/billing_service.py] *)

Module BillingService.

Definition deduct_balance (e : Env) (user_id : UUID) (amount : Z)
    (task_id : string) (description : option string) (auto_commit : bool)
    : M Z :=
  new_balance ← UserRepository.update_balance_atomic user_id (- Z.abs amount);
  match new_balance with
  | None => raise (InsufficientBalanceError amount 0)
  | Some new_balance =>
      let transaction :=
        Transaction.create_deduct e user_id amount new_balance task_id
          (Some (or_default description
                   ("Task " +:+ String.substring 0 8 task_id +:+ "..."))) in
      TransactionRepository.save transaction ;;
      (if auto_commit then session.commit else mret ()) ;;
      mret new_balance
  end.

(** The REFUND row is built with the placeholder balance 0 and inserted
    before the balance is touched; nothing writes the row again. *)
Definition refund (e : Env) (user_id : UUID) (amount : Z)
    (task_id : string) (description : option string) : M Z :=
  let transaction :=
    Transaction.create_refund e user_id amount 0 task_id
      (Some (or_default description
               ("Refund for task " +:+ String.substring 0 8 task_id +:+ "..."))) in
  inserted ← TransactionRepository.save_idempotent transaction;
  if negb inserted then raise (RefundAlreadyProcessedError task_id)
  else
    new_balance ← UserRepository.update_balance_atomic user_id (Z.abs amount);
    match new_balance with
    | None =>
        session.rollback ;;
        raise (ValueError ("User not found: " +:+ user_id))
    | Some new_balance =>
        session.commit ;;
        mret new_balance
    end.

Definition deposit (e : Env) (user_id : UUID) (amount : Z)
    (payment_id : string) (description : option string) : M Z :=
  new_balance ← UserRepository.update_balance_atomic user_id (Z.abs amount);
  match new_balance with
  | None => raise (ValueError ("User not found: " +:+ user_id))
  | Some new_balance =>
      let transaction :=
        Transaction.create_deposit e user_id amount new_balance payment_id
          (Some (or_default description
                   ("Deposit from payment " +:+ String.substring 0 8 payment_id
                      +:+ "..."))) in
      TransactionRepository.save transaction ;;
      session.commit ;;
      mret new_balance
  end.

Definition get_balance (user_id : UUID) : M Z :=
  user ← UserRepository.get_by_id user_id;
  match user with
  | None => raise (ValueError ("User not found: " +:+ user_id))
  | Some user => mret (balance user)
  end.

End BillingService.

(** ** [application/services/task_service.py] *)

Module TaskService.

Definition create_task (cfg : Settings) (e : Env) (user_id : UUID)
    (task_type : TaskType) (website_key : string)
    (website_url website_domain : option string) (is_enterprise : bool)
    : M Task :=
  user ← UserRepository.get_by_id user_id;
  match user with
  | None => raise (EntityNotFoundError "User" user_id)
  | Some user =>
      let price := price_per_task cfg in
      if negb (User.can_afford user price)
      then raise (InsufficientBalanceError price (balance user))
      else
        let task :=
          Task.create e user_id task_type website_key website_url
            website_domain is_enterprise in
        saved_task ← TaskRepository.save task;
        session.commit ;;
        mret saved_task
  end.

Definition get_task (task_id user_id : UUID) : M Task :=
  task ← TaskRepository.get_by_id_and_user task_id user_id;
  match task with
  | None => raise (EntityNotFoundError "Task" task_id)
  | Some task => mret task
  end.

Definition get_task_by_id (task_id : UUID) : M Task :=
  task ← TaskRepository.get_by_id task_id;
  match task with
  | None => raise (EntityNotFoundError "Task" task_id)
  | Some task => mret task
  end.

Definition start_processing (e : Env) (task_id : UUID) : M bool :=
  result ← TaskRepository.update_status e task_id PROCESSING
             None None None None;
  session.commit ;;
  mret result.

Definition complete_task (cfg : Settings) (e : Env) (task_id : UUID)
    (token : string) : M Task :=
  task ← TaskRepository.get_by_id task_id;
  match task with
  | None => raise (EntityNotFoundError "Task" task_id)
  | Some task =>
      let price := price_per_task cfg in
      try_except
        (BillingService.deduct_balance e (task_user_id task) price
           (Task.id task) None false ;;
         TaskRepository.update_status e task_id READY
           (Some token) (Some price) None None ;;
         session.commit)
        (λ x, session.rollback ;; raise x) ;;
      get_task_by_id task_id
  end.

Definition fail_task (e : Env) (task_id : UUID) (error_code : string)
    (error_desc : option string) : M Task :=
  TaskRepository.update_status e task_id FAILED
    None None (Some error_code) error_desc ;;
  session.commit ;;
  get_task_by_id task_id.

Definition refund_task (e : Env) (task_id user_id : UUID) : M bool :=
  task ← get_task task_id user_id;
  if negb (bool_decide (status task = READY)) then mret false
  else if cost task <=? 0 then mret false
  else
    try_except
      (BillingService.refund e user_id (cost task) task_id None ;;
       mret true)
      (λ _, mret false).

End TaskService.

(** ** The refund route: [api/v1/routes/task.py], [api/v1/schemas/task.py]

    [report_incorrect] is the route from the point where the caller is
    authenticated and [UUID(request.taskId)] has been built;
    [report_incorrect_request] is the route from the text of the request. *)

Record ReportIncorrectResponse : Type := {
  errorId : Z;
  errorCode : option string;
  response_status : option string
}.

Module ErrorCodes.
Definition SUCCESS : Z := 0.
Definition NO_SUCH_TASK : Z := 12.
Definition INTERNAL_ERROR : Z := 99.
End ErrorCodes.

Definition make_error_response (error_id : Z) : ReportIncorrectResponse :=
  if error_id =? 0
  then {| errorId := 0; errorCode := None; response_status := None |}
  else
    {| errorId := error_id;
       errorCode :=
         Some (if error_id =? ErrorCodes.NO_SUCH_TASK
               then "ERROR_NO_SUCH_CAPTCHA_ID"
               else if error_id =? ErrorCodes.INTERNAL_ERROR
               then "ERROR_INTERNAL"
               else "ERROR_UNKNOWN");
       response_status := None |}.

Definition report_incorrect (e : Env) (task_id user_id : UUID)
    : M ReportIncorrectResponse :=
  try_except
    (success ← TaskService.refund_task e task_id user_id;
     mret {| errorId := 0; errorCode := None;
             response_status :=
               Some (if (success : bool) then "success"
                     else "already_refunded") |})
    (λ x, match x with
          | EntityNotFoundError _ _ =>
              mret (make_error_response ErrorCodes.NO_SUCH_TASK)
          | _ => mret (make_error_response ErrorCodes.INTERNAL_ERROR)
          end).

(** [uuid.UUID] is library code: [UUID_of text] is the UUID it builds from a
    text, [None] when it raises [ValueError].  The call sits inside the [try]
    of the route, so a text that is no UUID ends in the catch-all. *)
Definition report_incorrect_request (UUID_of : string → option UUID)
    (e : Env) (taskId : string) (user_id : UUID)
    : M ReportIncorrectResponse :=
  match UUID_of taskId with
  | None => mret (make_error_response ErrorCodes.INTERNAL_ERROR)
  | Some task_id => report_incorrect e task_id user_id
  end.

(** ** [infrastructure/cache/rate_limiter.py]

    The script runs atomically inside Redis on one sorted set.  Clock readings
    are exact rationals (seconds); the member name the script builds from
    [now] and [math.random()] is an input of the model.  A key that is absent
    holds the empty set; [EXPIRE] only removes a key whose entries have all
    left the window, and is not modelled. *)

Module RateLimiter.

Record Entry : Type := {
  member : string;
  score : Q
}.

(** ZREMRANGEBYSCORE key -inf max: scores up to and including [max] go. *)
Definition ZREMRANGEBYSCORE (z : list Entry) (max : Q) : list Entry :=
  List.filter (λ x, negb (Qle_bool (score x) max)) z.

Definition ZCARD (z : list Entry) : Z := Z.of_nat (length z).

(** ZADD key score member: a member already present only changes score. *)
Definition ZADD (z : list Entry) (sc : Q) (m : string) : list Entry :=
  {| member := m; score := sc |}
    :: List.filter (λ x, negb (bool_decide (member x = m))) z.

(** The score ZRANGE key 0 0 WITHSCORES reports: the lowest one. *)
Fixpoint oldest (z : list Entry) : option Q :=
  match z with
  | [] => None
  | x :: rest =>
      match oldest rest with
      | None => Some (score x)
      | Some o => Some (if Qle_bool (score x) o then score x else o)
      end
  end.

Definition lua_script (z : list Entry) (now window_start : Q)
    (max_requests window_seconds : Z) (new_member : string)
    : list Entry * (Z * Z * Z) :=
  let z1 := ZREMRANGEBYSCORE z window_start in
  let current := ZCARD z1 in
  if current <? max_requests
  then (ZADD z1 now new_member, (1, max_requests - current - 1, 0))
  else
    let retry_after :=
      match oldest z1 with
      | Some o => Qceiling (o + inject_Z window_seconds - now)
      | None => 0
      end in
    (z1, (0, 0, retry_after)).

Definition zset_of (store : gmap string (list Entry)) (redis_key : string)
    : list Entry :=
  default [] (store !! redis_key).

Definition is_allowed (key_prefix : string)
    (store : gmap string (list Entry)) (now : Q) (new_member : string)
    (key : string) (max_requests window_seconds : Z)
    : gmap string (list Entry) * (bool * Z * Z) :=
  let window_start := (now - inject_Z window_seconds)%Q in
  let redis_key := key_prefix +:+ ":" +:+ key in
  let '(z', (a, remaining, retry_after)) :=
    lua_script (zset_of store redis_key) now window_start
      max_requests window_seconds new_member in
  (<[redis_key := z']> store, (negb (a =? 0), remaining, retry_after)).

(** [reset]: DEL on the key of the caller. *)
Definition reset (key_prefix : string) (store : gmap string (list Entry))
    (key : string) : gmap string (list Entry) :=
  delete (key_prefix +:+ ":" +:+ key) store.

End RateLimiter.


(** ** Sequences of service calls

    Each call is one request: it runs in a session of its own on the database
    the previous call left.  Calls that arrive together are taken in the order
    in which their database transactions go through. *)

Inductive Call : Type :=
  | CreateTask (e : Env) (user_id : UUID) (task_type : TaskType)
      (website_key : string) (website_url website_domain : option string)
      (is_enterprise : bool)
  | StartProcessing (e : Env) (task_id : UUID)
  | CompleteTask (e : Env) (task_id : UUID) (token : string)
  | FailTask (e : Env) (task_id : UUID) (error_code : string)
      (error_desc : option string)
  | RefundTask (e : Env) (task_id user_id : UUID)
  | DeductBalance (e : Env) (user_id : UUID) (amount : Z) (task_id : string)
      (description : option string) (auto_commit : bool)
  | Refund (e : Env) (user_id : UUID) (amount : Z) (task_id : string)
      (description : option string)
  | Deposit (e : Env) (user_id : UUID) (amount : Z) (payment_id : string)
      (description : option string).

Definition exec (cfg : Settings) (c : Call) (db : Db) : Db :=
  match c with
  | CreateTask e u ty k url dom ent =>
      (session.run (TaskService.create_task cfg e u ty k url dom ent) db).2
  | StartProcessing e t =>
      (session.run (TaskService.start_processing e t) db).2
  | CompleteTask e t tok =>
      (session.run (TaskService.complete_task cfg e t tok) db).2
  | FailTask e t code desc =>
      (session.run (TaskService.fail_task e t code desc) db).2
  | RefundTask e t u =>
      (session.run (TaskService.refund_task e t u) db).2
  | DeductBalance e u a t d ac =>
      (session.run (BillingService.deduct_balance e u a t d ac) db).2
  | Refund e u a t d =>
      (session.run (BillingService.refund e u a t d) db).2
  | Deposit e u a p d =>
      (session.run (BillingService.deposit e u a p d) db).2
  end.

Definition run_calls (cfg : Settings) (cs : list Call) (db : Db) : Db :=
  foldl (λ d c, exec cfg c d) db cs.

(** ** Properties of a database state *)

Definition ref_key (t : Transaction) : string * string :=
  (reference_id t, reference_type t).

(** The reference kind each constructor of [Transaction] pairs with a type. *)
Definition well_kinded (t : Transaction) : Prop :=
  (tx_type t = DEDUCT → reference_type t = "TASK") ∧
  (tx_type t = REFUND → reference_type t = "TASK_REFUND").

Definition ledger_ok (db : Db) : Prop :=
  NoDup (ref_key <$> transactions db) ∧ Forall well_kinded (transactions db).

Definition balances_nonneg (db : Db) : Prop :=
  ∀ uid u, users db !! uid = Some u → 0 ≤ balance u.

Definition has_ref (db : Db) (rid rtype : string) : bool :=
  existsb (λ t, bool_decide (ref_key t = (rid, rtype))) (transactions db).

(** How many rows of type [ty] refer to [J]. *)
Definition count_for (ty : TransactionType) (J : string) (db : Db) : nat :=
  length (List.filter
            (λ t, bool_decide (tx_type t = ty) &&
                  bool_decide (reference_id t = J))
            (transactions db)).

Definition balance_of (db : Db) (uid : UUID) : option Z :=
  balance <$> users db !! uid.

(** ** Concrete states used to run the code *)

Definition a_user (uid : UUID) (b : Z) : User :=
  {| user_id := uid; email := uid +:+ "@example.org";
     hashed_password := "x"; hashed_api_key := None; api_key_prefix := None;
     balance := b; is_active := true; is_superuser := false;
     is_verified := true; user_created_at := 0; last_login_at := None |}.

Definition a_task (tid uid : UUID) (st : TaskStatus) (tok : option string)
    (c : Z) : Task :=
  {| task_id := tid; task_user_id := uid; task_type := RECAPTCHA_V2;
     status := st; website_url := Some "https://example.org";
     website_key := "sitekey"; website_domain := None;
     is_enterprise := false; token := tok; cost := c; error_code := None;
     error_desc := None; retry_count := 0; task_created_at := 1;
     started_at := None; completed_at := None |}.

Definition an_env (fresh : UUID) (now : Z) : Env :=
  {| uuid4 := fresh; utcnow := now |}.

Definition cfg10 : Settings :=
  {| price_per_task := 10; rate_limit_per_minute := 3 |}.

(** Account A with the given balance and one job J in the given state. *)
Definition db_one (b : Z) (st : TaskStatus) (tok : option string) (c : Z)
    (txs : list Transaction) : Db :=
  {| users := {[ "A" := a_user "A" b ]};
     tasks := {[ "J" := a_task "J" "A" st tok c ]};
     transactions := txs |}.

(** The DEDUCT row a settled job J of account A carries. *)
Definition deduct_row_J : Transaction :=
  Transaction.create_deduct (an_env "tx-1" 5) "A" 10 90 "J"
    (Some "Task J...").

(** The REFUND row of a job K of account A that was refunded before. *)
Definition refund_row_K : Transaction :=
  Transaction.create_refund (an_env "tx-2" 7) "A" 10 0 "K"
    (Some "Refund for task K...").

(** Account A with a job J that is still PENDING and a job K that is READY,
    was billed 10 and has been refunded. *)
Definition db_two : Db :=
  {| users := {[ "A" := a_user "A" 100 ]};
     tasks := {[ "J" := a_task "J" "A" PENDING None 0;
                 "K" := a_task "K" "A" READY (Some "tok") 10 ]};
     transactions := [refund_row_K] |}.

(** ** Successive checks of the rate gate

    The checks of one key, each on the store the one before it left; a
    request is the clock reading and the member name of its entry. *)

Fixpoint checks (key_prefix : string)
    (store : gmap string (list RateLimiter.Entry)) (key : string)
    (max_requests window_seconds : Z) (requests : list (Q * string))
    : list (bool * Z * Z) :=
  match requests with
  | [] => []
  | (now, new_member) :: rest =>
      let out :=
        RateLimiter.is_allowed key_prefix store now new_member key
          max_requests window_seconds in
      out.2 :: checks key_prefix out.1 key max_requests window_seconds rest
  end.

(** ** Invariants of sessions

    [preserves I m]: when the committed and the working database both satisfy
    [I] before [m] runs, they both do after, whatever [m] returns or raises. *)

Definition preserves {A : Type} (I : Db → Prop) (m : M A) : Prop :=
  ∀ s, I (committed s) → I (working s) →
       I (committed (m s).2) ∧ I (working (m s).2).

(** ** Task types: [TaskType] of [domain/value_objects/enums.py] *)

(** [s.replace(old, "")] for a non-empty [old]: scan from the left, drop each
    occurrence and go on behind it.  [skip] counts the characters of the
    occurrence under way that are still to drop. *)
Fixpoint drop_occurrences (old : string) (skip : nat) (s : string) : string :=
  match s with
  | EmptyString => EmptyString
  | String c rest =>
      match skip with
      | S k => drop_occurrences old k rest
      | O =>
          if String.prefix old s
          then drop_occurrences old (Nat.pred (String.length old)) rest
          else String c (drop_occurrences old O rest)
      end
  end.

Definition str_remove (old s : string) : string :=
  if bool_decide (old = "") then s else drop_occurrences old O s.

(** [old in s]. *)
Fixpoint str_contains (old s : string) : bool :=
  String.prefix old s ||
  match s with
  | EmptyString => false
  | String _ rest => str_contains old rest
  end.

Module TaskType.

Definition value (self : TaskType) : string :=
  match self with
  | RECAPTCHA_V2 => "RecaptchaV2Task"
  | RECAPTCHA_V2_INVISIBLE => "RecaptchaV2TaskInvisible"
  | RECAPTCHA_V3 => "RecaptchaV3Task"
  | HCAPTCHA => "HCaptchaTask"
  end.

(** The members in definition order, which is the order of [for member in cls]. *)
Definition members : list TaskType :=
  [RECAPTCHA_V2; RECAPTCHA_V2_INVISIBLE; RECAPTCHA_V3; HCAPTCHA].

Definition normalize (v : string) : string :=
  str_remove "proxyless" (str_remove "Proxyless" v).

Definition from_string (v : string) : Exn + TaskType :=
  let normalized := normalize v in
  match List.find
          (λ member, bool_decide (value member = normalized) ||
                     bool_decide (value member = v)) members with
  | Some member => inr member
  | None => inl (ValueError ("Unknown task type: " +:+ v))
  end.

Definition is_invisible (self : TaskType) : bool :=
  str_contains "Invisible" (value self).

End TaskType.

(** ** The entity under a sequence of method calls

    The five methods of [Task] that change the object.  A call that raises
    leaves the object as it was; the caller goes on with the same object. *)

Inductive TaskOp : Type :=
  | OpStart (e : Env)
  | OpComplete (e : Env) (token : string) (cost : Z)
  | OpFail (e : Env) (error_code : string) (error_desc : option string)
  | OpRetry
  | OpTransition (new_status : TaskStatus).

Definition call_op (t : Task) (op : TaskOp) : Exn + Task :=
  match op with
  | OpStart e => Task.start_processing e t
  | OpComplete e tok c => Task.complete e t tok c
  | OpFail e code desc => Task.fail e t code desc
  | OpRetry => inr (Task.increment_retry t)
  | OpTransition new_status => Task.transition_to t new_status
  end.

Definition after_op (t : Task) (op : TaskOp) : Task :=
  match call_op t op with
  | inr t' => t'
  | inl _ => t
  end.

Definition after_ops (t : Task) (ops : list TaskOp) : Task :=
  foldl after_op t ops.

(** What the fields of a task say about its status, whatever was called. *)
Definition lifecycle_ok (t : Task) : Prop :=
  (cost t ≠ 0 → status t = READY) ∧
  (is_Some (token t) → status t = READY) ∧
  (is_Some (error_code t) → status t = FAILED) ∧
  (is_Some (error_desc t) → status t = FAILED) ∧
  (is_Some (completed_at t) → TaskStatus.is_terminal (status t) = true) ∧
  (is_Some (started_at t) → status t ≠ PENDING) ∧
  0 ≤ retry_count t.

(** What the status says about the fields; this is lost when the status is
    moved by [transition_to] alone. *)
Definition lifecycle_complete (t : Task) : Prop :=
  (status t = READY → is_Some (token t)) ∧
  (status t = FAILED → is_Some (error_code t)) ∧
  (TaskStatus.is_terminal (status t) = true → is_Some (completed_at t)) ∧
  (status t = PROCESSING ∨ status t = READY → is_Some (started_at t)).

(** The call goes through [start_processing], [complete], [fail] or
    [increment_retry]. *)
Definition named_operation (op : TaskOp) : bool :=
  match op with
  | OpTransition _ => false
  | _ => true
  end.

(** How many of the calls are [increment_retry]. *)
Definition retries (ops : list TaskOp) : Z :=
  Z.of_nat (length (List.filter (λ op, match op with OpRetry => true | _ => false end) ops)).

(** ** The ledger of one account *)

(** The sum of the amounts of the rows of account [uid]. *)
Definition ledger_total (db : Db) (uid : UUID) : Z :=
  foldr (λ t acc, if bool_decide (tx_user_id t = uid)
                  then amount t + acc else acc)
        0 (transactions db).

(** What is on the account beyond what its rows add up to. *)
Definition unbooked (db : Db) (uid : UUID) : Z :=
  default 0 (balance_of db uid) - ledger_total db uid.

(** Every task that carries a cost has its DEDUCT row in the ledger. *)
Definition billed_in_ledger (db : Db) : Prop :=
  ∀ k t, tasks db !! k = Some t → cost t ≠ 0 →
         has_ref db (task_id t) "TASK" = true.

(** * Theorems *)

(** ** The state machine of the domain entity *)

Lemma can_transition_from_terminal (s target : TaskStatus) :
  TaskStatus.is_terminal s = true →
  TaskStatus.can_transition_to s target = false.
Proof. destruct s, target; intros H; try discriminate H; reflexivity. Qed.

Lemma transition_to_terminal_raises (t : Task) (target : TaskStatus) :
  TaskStatus.is_terminal (status t) = true →
  Task.transition_to t target =
    inl (InvalidStateTransitionError (TaskStatus.value (status t))
                                     (TaskStatus.value target)).
Proof.
  intros H. unfold Task.transition_to.
  rewrite (can_transition_from_terminal _ target H). reflexivity.
Qed.

(** What the entity does with a settled job: all three operations are
    refused, and since the result carries no task, nothing was changed. *)
Lemma entity_refuses_settled (e : Env) (t : Task) (tok code : string)
    (c : Z) (desc : option string) :
  TaskStatus.is_terminal (status t) = true →
  Task.start_processing e t =
    inl (InvalidStateTransitionError (TaskStatus.value (status t))
                                     "processing") ∧
  Task.complete e t tok c =
    inl (InvalidStateTransitionError (TaskStatus.value (status t)) "ready") ∧
  Task.fail e t code desc =
    inl (InvalidStateTransitionError (TaskStatus.value (status t)) "failed").
Proof.
  intros H. unfold Task.start_processing, Task.complete, Task.fail.
  rewrite !(transition_to_terminal_raises t _ H). auto.
Qed.

(** C1 (code_bug).  The service path never consults the state machine.  On
    account A with a READY job J that was billed 10: the entity refuses
    [fail], yet [TaskService.fail_task] succeeds and leaves J FAILED;
    [start_processing] succeeds and leaves J PROCESSING; and on a FAILED job
    [complete_task] succeeds, debits the account and appends a DEDUCT row. *)
Theorem service_ignores_state_machine :
  let ready := db_one 90 READY (Some "tok") 10 [deduct_row_J] in
  let failed := db_one 100 FAILED None 0 [] in
  let e := an_env "tx-9" 9 in
  Task.fail e (a_task "J" "A" READY (Some "tok") 10) "INTERNAL_ERROR" None
    = inl (InvalidStateTransitionError "ready" "failed") ∧
  (∃ t', (session.run (TaskService.fail_task e "J" "INTERNAL_ERROR" None)
            ready).1 = inr t' ∧ status t' = FAILED) ∧
  status <$> tasks (session.run
                      (TaskService.fail_task e "J" "INTERNAL_ERROR" None)
                      ready).2 !! "J" = Some FAILED ∧
  (session.run (TaskService.start_processing e "J") ready).1 = inr true ∧
  status <$> tasks (session.run (TaskService.start_processing e "J")
                      ready).2 !! "J" = Some PROCESSING ∧
  (∃ t', (session.run (TaskService.complete_task cfg10 e "J" "tok2")
            failed).1 = inr t' ∧ status t' = READY) ∧
  balance_of (session.run (TaskService.complete_task cfg10 e "J" "tok2")
                failed).2 "A" = Some 90 ∧
  count_for DEDUCT "J"
    (session.run (TaskService.complete_task cfg10 e "J" "tok2") failed).2
    = 1%nat.
Proof.
  cbv zeta. repeat split.
  - eexists. split; [vm_compute; reflexivity | reflexivity].
  - eexists. split; [vm_compute; reflexivity | reflexivity].
Qed.

(** ** Transactions *)

(** C10.  Whatever the sign of the amount passed in, a DEDUCT row carries
    minus its absolute value and a REFUND or DEPOSIT row its absolute value,
    so the type of a row fixes the direction it records: passing the
    opposite amount gives the same row. *)
Theorem transaction_amounts_sign_normalized (e : Env) (u : UUID) (a b : Z)
    (r : string) (d : option string) :
  let dd := Transaction.create_deduct e u a b r d in
  let rf := Transaction.create_refund e u a b r d in
  let dp := Transaction.create_deposit e u a b r d in
  (tx_type dd = DEDUCT ∧ amount dd = - Z.abs a ∧ amount dd ≤ 0) ∧
  (tx_type rf = REFUND ∧ amount rf = Z.abs a ∧ 0 ≤ amount rf) ∧
  (tx_type dp = DEPOSIT ∧ amount dp = Z.abs a ∧ 0 ≤ amount dp) ∧
  amount (Transaction.create_deduct e u (- a) b r d) = amount dd ∧
  amount (Transaction.create_refund e u (- a) b r d) = amount rf ∧
  amount (Transaction.create_deposit e u (- a) b r d) = amount dp.
Proof.
  cbn. rewrite Z.abs_opp. repeat split; lia.
Qed.


(** C9 (code_bug).  Account A holds 90 and job J was billed 10.  The refund
    succeeds and the account holds 100, but the REFUND row still carries the
    placeholder 0 as its balance afterwards. *)
Theorem refund_row_keeps_placeholder_balance :
  let db := db_one 90 READY (Some "tok") 10 [deduct_row_J] in
  let out := session.run
               (BillingService.refund (an_env "tx-9" 9) "A" 10 "J" None) db in
  out.1 = inr 100 ∧
  balance_of out.2 "A" = Some 100 ∧
  (λ t, (tx_type t, amount t, balance_after t)) <$> transactions out.2
    = [(DEDUCT, -10, 90); (REFUND, 10, 0)].
Proof. cbv zeta. repeat split. Qed.

(** C8, as stated, fails: a job that is not eligible (J, still PENDING) and a
    job that was refunded before (K) get the very same answer. *)
Lemma not_eligible_reads_already_refunded :
  let e := an_env "tx-9" 9 in
  (session.run (report_incorrect e "J" "A") db_two).1 =
    inr {| errorId := 0; errorCode := None;
           response_status := Some "already_refunded" |} ∧
  (session.run (report_incorrect e "J" "A") db_two).1 =
    (session.run (report_incorrect e "K" "A") db_two).1 ∧
  (session.run (TaskService.refund_task e "J" "A") db_two).1 = inr false ∧
  (session.run (TaskService.refund_task e "K" "A") db_two).1 = inr false.
Proof. cbv zeta. repeat split. Qed.

(** ** Deduct-on-complete *)

Lemma balance_suffices_debit (a : Z) (u : User) :
  a < 0 →
  UserRepository.balance_suffices a u = bool_decide (0 ≤ balance u + a).
Proof.
  intros Ha. unfold UserRepository.balance_suffices.
  destruct (Z.ltb_spec a 0); [| lia].
  destruct (Z.leb_spec (Z.abs a) (balance u));
    symmetry; [apply bool_decide_eq_true | apply bool_decide_eq_false]; lia.
Qed.

Lemma balance_suffices_credit (a : Z) (u : User) :
  0 ≤ a → UserRepository.balance_suffices a u = true.
Proof.
  intros Ha. unfold UserRepository.balance_suffices.
  destruct (Z.ltb_spec a 0); [lia | reflexivity].
Qed.

(** C4.  When the account cannot pay the price, [complete_task] raises
    [InsufficientBalanceError] and the database is what it was: the job is
    still PROCESSING, the balance is untouched and no row was appended. *)
Theorem complete_task_insufficient_balance (cfg : Settings) (e : Env)
    (db : Db) (tid : UUID) (t : Task) (u : User) (tok : string) :
  tasks db !! tid = Some t →
  status t = PROCESSING →
  users db !! task_user_id t = Some u →
  0 < price_per_task cfg →
  balance u < price_per_task cfg →
  let out := session.run (TaskService.complete_task cfg e tid tok) db in
  out.1 = inl (InsufficientBalanceError (price_per_task cfg) 0) ∧
  out.2 = db ∧
  status <$> tasks out.2 !! tid = Some PROCESSING ∧
  balance_of out.2 (task_user_id t) = Some (balance u) ∧
  transactions out.2 = transactions db.
Proof.
  intros Ht Hst Hu Hp Hb out.
  assert (Hout : out = (inl (InsufficientBalanceError (price_per_task cfg) 0), db)).
  { subst out. unfold session.run, TaskService.complete_task.
    unfold mbind, M_bind, TaskRepository.get_by_id. cbn [working committed].
    rewrite Ht. unfold try_except, BillingService.deduct_balance.
    unfold mbind, M_bind, UserRepository.update_balance_atomic.
    cbn [working committed]. rewrite Hu.
    rewrite balance_suffices_debit by lia.
    rewrite bool_decide_eq_false_2 by lia.
    reflexivity. }
  rewrite Hout. cbn [fst snd]. unfold balance_of.
  rewrite Ht, Hu. cbn. rewrite Hst. auto.
Qed.

Lemma same_ref_ref_key (t u : Transaction) :
  same_ref t u = bool_decide (ref_key u = ref_key t).
Proof.
  unfold same_ref, ref_key.
  destruct (decide (reference_id t = reference_id u)) as [E1 | N1];
    destruct (decide (reference_type t = reference_type u)) as [E2 | N2];
    [ rewrite !bool_decide_eq_true_2 by congruence
    | rewrite (bool_decide_eq_false_2 (_ = reference_type u)) by congruence;
      rewrite (bool_decide_eq_false_2 (_ = (_, _))) by congruence
    | rewrite (bool_decide_eq_false_2 (_ = reference_id u)) by congruence;
      rewrite (bool_decide_eq_false_2 (_ = (_, _))) by congruence
    | rewrite (bool_decide_eq_false_2 (_ = reference_id u)) by congruence;
      rewrite (bool_decide_eq_false_2 (_ = (_, _))) by congruence ];
    try reflexivity.
  - rewrite andb_false_r. reflexivity.
Qed.

Lemma existsb_same_ref (db : Db) (t : Transaction) :
  existsb (same_ref t) (transactions db)
  = has_ref db (reference_id t) (reference_type t).
Proof.
  unfold has_ref. induction (transactions db) as [| x l IH]; [reflexivity |].
  cbn. rewrite IH, same_ref_ref_key. reflexivity.
Qed.

Lemma existsb_tx_id_fresh (l : list Transaction) (i : UUID) :
  Forall (λ x, tx_id x ≠ i) l →
  existsb (λ u, bool_decide (tx_id u = i)) l = false.
Proof.
  induction 1 as [| x l Hx _ IH]; [reflexivity |].
  cbn. rewrite IH, bool_decide_eq_false_2 by assumption. reflexivity.
Qed.

(** The three constraints, read off a row about to be inserted. *)
Lemma violates_constraints_spec (db : Db) (t : Transaction) :
  violates_constraints db t = false ↔
  existsb (λ u, bool_decide (tx_id u = tx_id t)) (transactions db) = false ∧
  has_ref db (reference_id t) (reference_type t) = false ∧
  is_Some (users db !! tx_user_id t).
Proof.
  unfold violates_constraints. rewrite existsb_same_ref.
  rewrite !orb_false_iff, bool_decide_eq_false, <- not_eq_None_Some.
  tauto.
Qed.

(** Projections of the states the primitives build, and nothing else. *)
Ltac db_simpl :=
  cbn [working committed set_working set_users set_tasks set_transactions
       users tasks transactions fst snd
       tx_id tx_user_id tx_type amount balance_after reference_id
       reference_type description tx_created_at
       Transaction.create_deduct Transaction.create_refund
       Transaction.create_deposit] in *.

Lemma update_balance_atomic_hit (s : Session) (uid : UUID) (a : Z) (u : User) :
  users (working s) !! uid = Some u →
  UserRepository.balance_suffices a u = true →
  UserRepository.update_balance_atomic uid a s =
    (inr (Some (balance u + a)),
     set_working s
       (set_users (working s)
          (<[uid := User.set_balance u (balance u + a)]> (users (working s))))).
Proof.
  intros Hu Hs. unfold UserRepository.update_balance_atomic.
  rewrite Hu, Hs. reflexivity.
Qed.

Lemma update_balance_atomic_miss (s : Session) (uid : UUID) (a : Z) :
  (∀ u, users (working s) !! uid = Some u →
        UserRepository.balance_suffices a u = false) →
  UserRepository.update_balance_atomic uid a s = (inr None, s).
Proof.
  intros H. unfold UserRepository.update_balance_atomic.
  destruct (users (working s) !! uid) as [u |] eqn:Hu; [| reflexivity].
  rewrite (H u eq_refl). reflexivity.
Qed.

Lemma add_and_flush_ok (s : Session) (t : Transaction) :
  violates_constraints (working s) t = false →
  add_and_flush t s =
    (inr (),
     set_working s
       (set_transactions (working s) (transactions (working s) ++ [t]))).
Proof. intros H. unfold add_and_flush. rewrite H. reflexivity. Qed.

Lemma add_and_flush_refused (s : Session) (t : Transaction) :
  violates_constraints (working s) t = true →
  add_and_flush t s = (inl IntegrityError, set_working s (committed s)).
Proof. intros H. unfold add_and_flush. rewrite H. reflexivity. Qed.

(** C5.  For a job in PROCESSING whose account can pay the price p, and with
    no DEDUCT row for the job yet, [complete_task] succeeds and commits three
    changes together: the balance goes down by p, one DEDUCT row of amount -p
    that refers to the job is appended, and the job is READY with the result
    and the cost p recorded. *)
Theorem complete_task_deducts_and_settles (cfg : Settings) (e : Env)
    (db : Db) (tid : UUID) (t : Task) (u : User) (tok : string) :
  tasks db !! tid = Some t →
  task_id t = tid →
  status t = PROCESSING →
  users db !! task_user_id t = Some u →
  0 ≤ price_per_task cfg →
  price_per_task cfg ≤ balance u →
  has_ref db tid "TASK" = false →
  Forall (λ x, tx_id x ≠ uuid4 e) (transactions db) →
  let p := price_per_task cfg in
  let row :=
    Transaction.create_deduct e (task_user_id t) p (balance u - p) tid
      (Some ("Task " +:+ String.substring 0 8 tid +:+ "...")) in
  let t' :=
    TaskRepository.apply_values e READY (Some tok) (Some p) None None t in
  let out := session.run (TaskService.complete_task cfg e tid tok) db in
  out.1 = inr t' ∧
  users out.2
    = <[task_user_id t := User.set_balance u (balance u - p)]> (users db) ∧
  transactions out.2 = (transactions db ++ [row])%list ∧
  tasks out.2 = <[tid := t']> (tasks db) ∧
  balance_of out.2 (task_user_id t) = Some (balance u - p) ∧
  (tx_type row = DEDUCT ∧ amount row = - p ∧ ref_key row = (tid, "TASK") ∧
   balance_after row = balance u - p) ∧
  (status t' = READY ∧ token t' = Some tok ∧ cost t' = p ∧
   completed_at t' = Some (utcnow e)).
Proof.
  intros Ht Hid Hst Hu Hp Hb Href Hfresh p row t' out.
  assert (Habs : - Z.abs p = - p) by (rewrite Z.abs_eq; [reflexivity | exact Hp]).
  assert (Hsuf : UserRepository.balance_suffices (- Z.abs p) u = true).
  { rewrite Habs. destruct (Z.eq_dec p 0) as [Hz | Hne].
    - rewrite Hz. reflexivity.
    - rewrite balance_suffices_debit by lia. apply bool_decide_eq_true. lia. }
  assert (Hout : out =
    (inr t',
     {| users := <[task_user_id t := User.set_balance u (balance u - p)]>
                   (users db);
        tasks := <[tid := t']> (tasks db);
        transactions := (transactions db ++ [row])%list |})).
  { subst out. unfold session.run, TaskService.complete_task.
    unfold mbind at 1. unfold M_bind at 1.
    unfold TaskRepository.get_by_id. cbn [working committed].
    rewrite Ht. fold p.
    unfold mbind at 1. unfold M_bind at 1.
    unfold try_except, BillingService.deduct_balance.
    unfold mbind at 1. unfold M_bind at 1.
    unfold mbind at 1. unfold M_bind at 1.
    unfold mbind at 1. unfold M_bind at 1.
    rewrite (update_balance_atomic_hit {| committed := db; working := db |}
               _ _ u Hu Hsuf).
    unfold Task.id. rewrite Hid.
    unfold TransactionRepository.save.
    unfold mbind at 1. unfold M_bind at 1.
    unfold mbind at 1. unfold M_bind at 1.
    unfold mbind at 1. unfold M_bind at 1.
    rewrite add_and_flush_ok.
    2:{ apply violates_constraints_spec. db_simpl. split; [| split].
        - apply existsb_tx_id_fresh, Hfresh.
        - exact Href.
        - rewrite lookup_insert_eq. eauto. }
    db_simpl. unfold mret, M_ret. db_simpl.
    unfold TaskRepository.update_status. db_simpl. rewrite Ht.
    unfold session.commit. db_simpl.
    unfold TaskService.get_task_by_id, TaskRepository.get_by_id.
    unfold mbind, M_bind. db_simpl. rewrite lookup_insert_eq.
    rewrite Habs. replace (balance u + - p) with (balance u - p) by lia.
    unfold or_default. reflexivity. }
  rewrite Hout. db_simpl.
  unfold balance_of. db_simpl. rewrite lookup_insert_eq.
  subst row t'. cbn. rewrite Habs. repeat split.
Qed.

(** ** Invariants that every service call keeps *)

Section Invariants.

Variable I : Db → Prop.

(** What an invariant has to tolerate: any change of the tasks table, a
    balance update the WHERE clause lets through, and the insertion of a
    well-kinded row that the constraints of the table accept. *)
Hypothesis I_tasks : ∀ db ts, I db → I (set_tasks db ts).
Hypothesis I_balance : ∀ db uid u a,
  I db → users db !! uid = Some u →
  UserRepository.balance_suffices a u = true →
  I (set_users db (<[uid := User.set_balance u (balance u + a)]> (users db))).
Hypothesis I_append : ∀ db t,
  I db → violates_constraints db t = false → well_kinded t →
  I (set_transactions db (transactions db ++ [t])).

Lemma preserves_ret {A : Type} (a : A) : preserves I (mret a).
Proof. intros s Hc Hw. auto. Qed.

Lemma preserves_raise {A : Type} (x : Exn) : preserves I (@raise A x).
Proof. intros s Hc Hw. auto. Qed.

Lemma preserves_bind {A B : Type} (m : M A) (k : A → M B) :
  preserves I m → (∀ a, preserves I (k a)) → preserves I (m ≫= k).
Proof.
  intros Hm Hk s Hc Hw. unfold mbind, M_bind.
  specialize (Hm s Hc Hw). destruct (m s) as [[x | a] s']; [exact Hm |].
  destruct Hm as [Hc' Hw']. exact (Hk a s' Hc' Hw').
Qed.

Lemma preserves_try_except {A : Type} (body : M A) (handler : Exn → M A) :
  preserves I body → (∀ x, preserves I (handler x)) →
  preserves I (try_except body handler).
Proof.
  intros Hm Hk s Hc Hw. unfold try_except.
  specialize (Hm s Hc Hw). destruct (body s) as [[x | a] s']; [| exact Hm].
  destruct Hm as [Hc' Hw']. exact (Hk x s' Hc' Hw').
Qed.

Lemma preserves_commit : preserves I session.commit.
Proof. intros s Hc Hw. cbn. auto. Qed.

Lemma preserves_rollback : preserves I session.rollback.
Proof. intros s Hc Hw. cbn. auto. Qed.

Lemma preserves_user_get (uid : UUID) :
  preserves I (UserRepository.get_by_id uid).
Proof. intros s Hc Hw. cbn. auto. Qed.

Lemma preserves_task_get (tid : UUID) :
  preserves I (TaskRepository.get_by_id tid).
Proof. intros s Hc Hw. cbn. auto. Qed.

Lemma preserves_task_get_for_user (tid uid : UUID) :
  preserves I (TaskRepository.get_by_id_and_user tid uid).
Proof. intros s Hc Hw. cbn. auto. Qed.

Lemma preserves_update_balance_atomic (uid : UUID) (a : Z) :
  preserves I (UserRepository.update_balance_atomic uid a).
Proof.
  intros s Hc Hw. unfold UserRepository.update_balance_atomic.
  destruct (users (working s) !! uid) as [u |] eqn:Hu; [| auto].
  destruct (UserRepository.balance_suffices a u) eqn:Hs; [| auto].
  db_simpl. split; [exact Hc |]. apply I_balance; assumption.
Qed.

Lemma preserves_add_and_flush (t : Transaction) :
  well_kinded t → preserves I (add_and_flush t).
Proof.
  intros Hk s Hc Hw. unfold add_and_flush.
  destruct (violates_constraints (working s) t) eqn:Hv; db_simpl; [auto |].
  split; [exact Hc |]. apply I_append; assumption.
Qed.

Lemma preserves_task_save (t : Task) : preserves I (TaskRepository.save t).
Proof.
  intros s Hc Hw. unfold TaskRepository.save.
  destruct (_ || _); db_simpl; [auto |].
  split; [exact Hc |]. apply I_tasks, Hw.
Qed.

Lemma preserves_update_status (e : Env) (tid : UUID) (st : TaskStatus)
    (tok : option string) (c : option Z) (code desc : option string) :
  preserves I (TaskRepository.update_status e tid st tok c code desc).
Proof.
  intros s Hc Hw. unfold TaskRepository.update_status.
  destruct (tasks (working s) !! tid); db_simpl; [| auto].
  split; [exact Hc |]. apply I_tasks, Hw.
Qed.

Lemma well_kinded_deduct e u a b r d :
  well_kinded (Transaction.create_deduct e u a b r d).
Proof. split; [reflexivity | discriminate]. Qed.

Lemma well_kinded_refund e u a b r d :
  well_kinded (Transaction.create_refund e u a b r d).
Proof. split; [discriminate | reflexivity]. Qed.

Lemma well_kinded_deposit e u a b r d :
  well_kinded (Transaction.create_deposit e u a b r d).
Proof. split; discriminate. Qed.

(** Break a service down to its primitives. *)
Ltac pres :=
  repeat first
    [ apply preserves_ret | apply preserves_raise
    | apply preserves_commit | apply preserves_rollback
    | apply preserves_user_get | apply preserves_task_get
    | apply preserves_task_get_for_user
    | apply preserves_update_balance_atomic
    | apply preserves_task_save | apply preserves_update_status
    | apply preserves_add_and_flush;
        first [ apply well_kinded_deduct | apply well_kinded_refund
              | apply well_kinded_deposit ]
    | apply preserves_bind; [| intros ?]
    | apply preserves_try_except; [| intros ?]
    | match goal with
      | |- preserves _ (match ?x with _ => _ end) => destruct x
      end ].

Lemma preserves_deduct_balance e u a t d ac :
  preserves I (BillingService.deduct_balance e u a t d ac).
Proof.
  unfold BillingService.deduct_balance, TransactionRepository.save. pres.
Qed.

Lemma preserves_refund e u a t d :
  preserves I (BillingService.refund e u a t d).
Proof.
  unfold BillingService.refund, TransactionRepository.save_idempotent. pres.
Qed.

Lemma preserves_deposit e u a p d :
  preserves I (BillingService.deposit e u a p d).
Proof.
  unfold BillingService.deposit, TransactionRepository.save. pres.
Qed.

Lemma preserves_create_task cfg e u ty k url dom ent :
  preserves I (TaskService.create_task cfg e u ty k url dom ent).
Proof. unfold TaskService.create_task. pres. Qed.

Lemma preserves_start_processing e t :
  preserves I (TaskService.start_processing e t).
Proof. unfold TaskService.start_processing. pres. Qed.

Lemma preserves_complete_task cfg e t tok :
  preserves I (TaskService.complete_task cfg e t tok).
Proof.
  unfold TaskService.complete_task, TaskService.get_task_by_id. pres.
Qed.

Lemma preserves_fail_task e t code desc :
  preserves I (TaskService.fail_task e t code desc).
Proof. unfold TaskService.fail_task, TaskService.get_task_by_id. pres. Qed.

Lemma preserves_refund_task e t u :
  preserves I (TaskService.refund_task e t u).
Proof.
  unfold TaskService.refund_task, TaskService.get_task. pres.
Qed.

Lemma run_preserves {A : Type} (m : M A) (db : Db) :
  preserves I m → I db → I (session.run m db).2.
Proof.
  intros Hm Hdb. unfold session.run.
  specialize (Hm {| committed := db; working := db |} Hdb Hdb).
  destruct (m _) as [r s]. exact (proj1 Hm).
Qed.

Lemma exec_preserves (cfg : Settings) (c : Call) (db : Db) :
  I db → I (exec cfg c db).
Proof.
  intros Hdb. destruct c; cbn [exec]; apply run_preserves; try exact Hdb.
  - apply preserves_create_task.
  - apply preserves_start_processing.
  - apply preserves_complete_task.
  - apply preserves_fail_task.
  - apply preserves_refund_task.
  - apply preserves_deduct_balance.
  - apply preserves_refund.
  - apply preserves_deposit.
Qed.

Lemma run_calls_preserves (cfg : Settings) (cs : list Call) (db : Db) :
  I db → I (run_calls cfg cs db).
Proof.
  unfold run_calls. revert db.
  induction cs as [| c cs IH]; intros db Hdb; [exact Hdb |].
  cbn. apply IH, exec_preserves, Hdb.
Qed.

End Invariants.

(** ** Balances never go negative *)

Lemma balances_nonneg_tasks (db : Db) (ts : gmap string Task) :
  balances_nonneg db → balances_nonneg (set_tasks db ts).
Proof. intros H. exact H. Qed.

Lemma balances_nonneg_balance (db : Db) (uid : UUID) (u : User) (a : Z) :
  balances_nonneg db → users db !! uid = Some u →
  UserRepository.balance_suffices a u = true →
  balances_nonneg
    (set_users db (<[uid := User.set_balance u (balance u + a)]> (users db))).
Proof.
  intros H Hu Hs uid' u'. db_simpl.
  destruct (decide (uid = uid')) as [<- | Hne].
  - rewrite lookup_insert_eq. intros [= <-]. cbn.
    specialize (H uid u Hu). unfold UserRepository.balance_suffices in Hs.
    destruct (Z.ltb_spec a 0); [apply Z.leb_le in Hs |]; lia.
  - rewrite lookup_insert_ne by exact Hne. apply H.
Qed.

Lemma balances_nonneg_append (db : Db) (t : Transaction) :
  balances_nonneg db → violates_constraints db t = false → well_kinded t →
  balances_nonneg (set_transactions db (transactions db ++ [t])).
Proof. intros H _ _. exact H. Qed.


(** ** One deduction and one refund per job *)

Lemma ledger_ok_tasks (db : Db) (ts : gmap string Task) :
  ledger_ok db → ledger_ok (set_tasks db ts).
Proof. intros H. exact H. Qed.

Lemma ledger_ok_balance (db : Db) (uid : UUID) (u : User) (a : Z) :
  ledger_ok db → users db !! uid = Some u →
  UserRepository.balance_suffices a u = true →
  ledger_ok
    (set_users db (<[uid := User.set_balance u (balance u + a)]> (users db))).
Proof. intros H _ _. exact H. Qed.

Lemma has_ref_false (db : Db) (rid rtype : string) :
  has_ref db rid rtype = false ↔ (rid, rtype) ∉ ref_key <$> transactions db.
Proof.
  unfold has_ref. induction (transactions db) as [| x l IH].
  - cbn. split; [intros _; apply not_elem_of_nil | reflexivity].
  - cbn [existsb fmap list_fmap]. rewrite orb_false_iff, IH, not_elem_of_cons.
    rewrite bool_decide_eq_false. split; intros [H1 H2]; split; auto.
Qed.

Lemma ledger_ok_append (db : Db) (t : Transaction) :
  ledger_ok db → violates_constraints db t = false → well_kinded t →
  ledger_ok (set_transactions db (transactions db ++ [t])).
Proof.
  intros [Hnd Hk] Hv Ht. apply violates_constraints_spec in Hv.
  destruct Hv as (_ & Href & _). apply has_ref_false in Href.
  split; db_simpl.
  - rewrite fmap_app. apply NoDup_app. split; [exact Hnd | split].
    + intros k Hin Hin'. cbn in Hin'. apply list_elem_of_singleton in Hin'.
      subst k. exact (Href Hin).
    + cbn. apply NoDup_singleton.
  - apply Forall_app. split; [exact Hk | apply Forall_singleton, Ht].
Qed.

(** Rows picked by a test that pins their key are at most one. *)
Lemma at_most_one_with_key (l : list Transaction) (P : Transaction → bool)
    (k : string * string) :
  NoDup (ref_key <$> l) →
  (∀ t, t ∈ l → P t = true → ref_key t = k) →
  (length (List.filter P l) ≤ 1)%nat.
Proof.
  induction l as [| x l IH]; intros Hnd Hk; [cbn; lia |].
  rewrite fmap_cons in Hnd. apply NoDup_cons in Hnd as [Hx Hnd].
  assert (IH' := IH Hnd (λ t Ht, Hk t (list_elem_of_further _ _ _ Ht))).
  cbn. destruct (P x) eqn:Px; [| exact IH'].
  assert (Hnone : List.filter P l = []).
  { destruct (List.filter P l) as [| y r] eqn:Hf; [reflexivity |].
    exfalso. assert (Hy : In y (List.filter P l)) by (rewrite Hf; left; auto).
    apply filter_In in Hy as [Hy Py]. apply list_elem_of_In in Hy.
    apply Hx. rewrite (Hk x (list_elem_of_here _ _) Px).
    rewrite <- (Hk y (list_elem_of_further _ _ _ Hy) Py).
    apply list_elem_of_fmap_2. exact Hy. }
  rewrite Hnone. cbn. lia.
Qed.

Lemma count_for_at_most_one (ty : TransactionType) (kind J : string)
    (db : Db) :
  NoDup (ref_key <$> transactions db) →
  (∀ t, t ∈ transactions db → tx_type t = ty → reference_type t = kind) →
  (count_for ty J db ≤ 1)%nat.
Proof.
  intros Hnd Hk. unfold count_for.
  apply (at_most_one_with_key _ _ (J, kind) Hnd).
  intros t Ht HP. apply andb_true_iff in HP as [H1 H2].
  apply bool_decide_eq_true in H1, H2. unfold ref_key.
  rewrite H2, (Hk t Ht H1). reflexivity.
Qed.


(** ** Refund *)

(** The row [BillingService.refund] tries to insert. *)
Lemma refund_refused (e : Env) (uid : UUID) (a : Z) (tid : string)
    (d : option string) (db : Db) :
  violates_constraints db
    (Transaction.create_refund e uid a 0 tid
       (Some (or_default d
                ("Refund for task " +:+ String.substring 0 8 tid +:+ "...")))) = true →
  session.run (BillingService.refund e uid a tid d) db
    = (inl (RefundAlreadyProcessedError tid), db).
Proof.
  intros Hv. unfold session.run, BillingService.refund.
  unfold TransactionRepository.save_idempotent.
  unfold mbind at 1. unfold M_bind at 1. unfold try_except.
  unfold mbind at 1. unfold M_bind at 1.
  rewrite add_and_flush_refused by exact Hv. reflexivity.
Qed.

Lemma refund_done (e : Env) (uid : UUID) (a : Z) (tid : string)
    (d : option string) (db : Db) :
  let row :=
    Transaction.create_refund e uid a 0 tid
      (Some (or_default d
               ("Refund for task " +:+ String.substring 0 8 tid +:+ "..."))) in
  violates_constraints db row = false →
  ∃ u, users db !! uid = Some u ∧
       session.run (BillingService.refund e uid a tid d) db
       = (inr (balance u + Z.abs a),
          {| users := <[uid := User.set_balance u (balance u + Z.abs a)]>
                        (users db);
             tasks := tasks db;
             transactions := (transactions db ++ [row])%list |}).
Proof.
  intros row Hv.
  destruct (proj1 (violates_constraints_spec _ _) Hv) as (_ & _ & [u Hu]).
  change (tx_user_id row) with uid in Hu.
  exists u. split; [exact Hu |].
  unfold session.run, BillingService.refund.
  unfold TransactionRepository.save_idempotent.
  unfold mbind at 1. unfold M_bind at 1. unfold try_except.
  unfold mbind at 1. unfold M_bind at 1.
  fold row. rewrite add_and_flush_ok by exact Hv.
  unfold mret, M_ret. cbn [negb].
  unfold mbind at 1. unfold M_bind at 1.
  rewrite (update_balance_atomic_hit _ _ _ u);
    [| db_simpl; exact Hu | apply balance_suffices_credit, Z.abs_nonneg].
  reflexivity.
Qed.

Lemma has_ref_violates (db : Db) (t : Transaction) :
  has_ref db (reference_id t) (reference_type t) = true →
  violates_constraints db t = true.
Proof.
  intros H. unfold violates_constraints. rewrite existsb_same_ref, H.
  rewrite orb_true_r. reflexivity.
Qed.

(** What [refund_task] and the route make of the outcome of [refund], for a
    job that passes the two eligibility tests. *)
Lemma refund_task_eligible (e : Env) (db : Db) (tid uid : UUID) (t : Task) :
  tasks db !! tid = Some t → task_user_id t = uid →
  status t = READY → 0 < cost t →
  session.run (TaskService.refund_task e tid uid) db =
    (match (session.run (BillingService.refund e uid (cost t) tid None) db).1
     with inl _ => inr false | inr _ => inr true end,
     (session.run (BillingService.refund e uid (cost t) tid None) db).2).
Proof.
  intros Ht Hu Hst Hc.
  unfold session.run at 1. unfold TaskService.refund_task, TaskService.get_task.
  unfold mbind at 1. unfold M_bind at 1.
  unfold mbind at 1. unfold M_bind at 1.
  unfold TaskRepository.get_by_id_and_user. db_simpl. rewrite Ht.
  rewrite bool_decide_eq_true_2 by exact Hu.
  unfold mret at 1. unfold M_ret at 1.
  rewrite Hst. rewrite bool_decide_eq_true_2 by reflexivity. cbn [negb].
  destruct (Z.leb_spec (cost t) 0) as [Hle | _]; [lia |].
  unfold try_except, session.run, mbind, M_bind.
  destruct (BillingService.refund e uid (cost t) tid None _) as [[x | b] s'];
    reflexivity.
Qed.

Lemma report_incorrect_of_refund_task (e : Env) (db : Db) (tid uid : UUID)
    (b : bool) (db' : Db) :
  session.run (TaskService.refund_task e tid uid) db = (inr b, db') →
  session.run (report_incorrect e tid uid) db =
    (inr {| errorId := 0; errorCode := None;
            response_status :=
              Some (if b then "success" else "already_refunded") |}, db').
Proof.
  unfold session.run, report_incorrect, try_except, mbind, M_bind.
  destruct (TaskService.refund_task e tid uid _) as [[x | b'] s'].
  - intros [=].
  - intros [= -> <-]. reflexivity.
Qed.

(** One [refund_task] call on an eligible job: either nothing was committed,
    or the REFUND row and the credit were committed together. *)
Lemma refund_task_step (e : Env) (db : Db) (tid uid : UUID) (t : Task) :
  tasks db !! tid = Some t → task_user_id t = uid →
  status t = READY → 0 < cost t →
  let row :=
    Transaction.create_refund e uid (cost t) 0 tid
      (Some ("Refund for task " +:+ String.substring 0 8 tid +:+ "...")) in
  (session.run (TaskService.refund_task e tid uid) db = (inr false, db) ∧
   violates_constraints db row = true) ∨
  (∃ u, users db !! uid = Some u ∧
        violates_constraints db row = false ∧
        session.run (TaskService.refund_task e tid uid) db =
          (inr true,
           {| users := <[uid := User.set_balance u (balance u + cost t)]>
                         (users db);
              tasks := tasks db;
              transactions := (transactions db ++ [row])%list |})).
Proof.
  intros Ht Hu Hst Hc row.
  rewrite (refund_task_eligible e db tid uid t Ht Hu Hst Hc).
  destruct (violates_constraints db row) eqn:Hv.
  - left. rewrite (refund_refused e uid (cost t) tid None db Hv). auto.
  - right. destruct (refund_done e uid (cost t) tid None db Hv) as (u & Hu' & Hr).
    exists u. rewrite Hr. rewrite Z.abs_eq by lia. auto.
Qed.

Lemma has_ref_app_new (db : Db) (us : gmap string User)
    (ts : gmap string Task) (row : Transaction) :
  has_ref {| users := us; tasks := ts;
             transactions := (transactions db ++ [row])%list |}
    (reference_id row) (reference_type row) = true.
Proof.
  unfold has_ref. db_simpl. rewrite existsb_app. cbn [existsb].
  unfold ref_key. rewrite bool_decide_eq_true_2 by reflexivity.
  rewrite orb_true_r. reflexivity.
Qed.

(** Once the REFUND row of the job is there, further refund calls change
    nothing. *)
Lemma refund_calls_after_refund (cfg : Settings) (es : list Env) (db : Db)
    (tid uid : UUID) (t : Task) :
  tasks db !! tid = Some t → task_user_id t = uid →
  status t = READY → 0 < cost t →
  has_ref db tid "TASK_REFUND" = true →
  run_calls cfg ((λ e', RefundTask e' tid uid) <$> es) db = db.
Proof.
  intros Ht Hu Hst Hc Href. unfold run_calls.
  induction es as [| e es IH]; [reflexivity |].
  cbn [fmap list_fmap foldl exec].
  destruct (refund_task_step e db tid uid t Ht Hu Hst Hc)
    as [[Hr _] | (u & _ & Hv & _)].
  - rewrite Hr. exact IH.
  - match type of Hv with
    | violates_constraints _ ?r = _ =>
        rewrite (has_ref_violates db r Href) in Hv
    end.
    discriminate Hv.
Qed.


(** C8, amended.  For a job of the caller, [refund_task] never raises and
    has two outcomes, which the route reports with errorId 0 as "success" and
    "already_refunded".  A job that is not READY or whose cost is not
    positive is left alone and answered "already_refunded", the same answer
    as for a job whose REFUND row is already in the ledger; an eligible job
    whose row can be inserted is answered "success". *)
Theorem refund_task_has_two_outcomes (e : Env) (db : Db) (tid uid : UUID)
    (t : Task) :
  tasks db !! tid = Some t → task_user_id t = uid →
  let out := session.run (TaskService.refund_task e tid uid) db in
  let resp := session.run (report_incorrect e tid uid) db in
  let answer (b : bool) : Exn + ReportIncorrectResponse :=
    inr {| errorId := 0; errorCode := None;
           response_status :=
             Some (if b then "success" else "already_refunded") |} in
  let row :=
    Transaction.create_refund e uid (cost t) 0 tid
      (Some ("Refund for task " +:+ String.substring 0 8 tid +:+ "...")) in
  (∃ b, out.1 = inr b ∧ resp = (answer b, out.2)) ∧
  (status t ≠ READY ∨ cost t ≤ 0 →
     out = (inr false, db) ∧ resp = (answer false, db)) ∧
  (has_ref db tid "TASK_REFUND" = true →
     out = (inr false, db) ∧ resp = (answer false, db)) ∧
  (status t = READY → 0 < cost t → violates_constraints db row = false →
     out.1 = inr true ∧ resp.1 = answer true).
Proof.
  intros Ht Hu out resp answer row.
  assert (Hno : status t ≠ READY ∨ cost t ≤ 0 → out = (inr false, db)).
  { intros Hne. subst out.
    unfold session.run, TaskService.refund_task, TaskService.get_task.
    unfold mbind at 1. unfold M_bind at 1.
    unfold mbind at 1. unfold M_bind at 1.
    unfold TaskRepository.get_by_id_and_user. db_simpl. rewrite Ht.
    rewrite bool_decide_eq_true_2 by exact Hu.
    unfold mret at 1. unfold M_ret at 1.
    destruct (decide (status t = READY)) as [Hst | Hst].
    - rewrite bool_decide_eq_true_2 by exact Hst. cbn [negb].
      destruct (Z.leb_spec (cost t) 0) as [_ | Hlt]; [reflexivity |].
      destruct Hne as [Hne | Hne]; [contradiction | lia].
    - rewrite bool_decide_eq_false_2 by exact Hst. reflexivity. }
  assert (Hcases : (out = (inr false, db)) ∨
                   (status t = READY ∧ 0 < cost t ∧
                    violates_constraints db row = false ∧ out.1 = inr true)).
  { destruct (decide (status t = READY)) as [Hst | Hst];
      [| left; apply Hno; left; exact Hst].
    destruct (Z_le_gt_dec (cost t) 0) as [Hle | Hgt];
      [left; apply Hno; right; exact Hle |].
    destruct (refund_task_step e db tid uid t Ht Hu Hst ltac:(lia))
      as [[Hr _] | (u & _ & Hv & Hr)].
    - left. exact Hr.
    - right. subst out. rewrite Hr. auto with zarith. }
  assert (Hresp : ∀ b db', out = (inr b, db') → resp = (answer b, db')).
  { intros b db' Hout.
    exact (report_incorrect_of_refund_task e db tid uid b db' Hout). }
  split; [| split; [| split]].
  - destruct Hcases as [Hout | (_ & _ & _ & Hout)].
    + exists false. rewrite Hout. split; [reflexivity |].
      apply Hresp. exact Hout.
    + exists true. split; [exact Hout |]. apply Hresp.
      destruct out as [r d]. cbn in Hout. subst r. reflexivity.
  - intros Hne. split; [apply Hno, Hne | apply Hresp, Hno, Hne].
  - intros Href.
    destruct Hcases as [Hout | (_ & _ & Hv & _)].
    + split; [exact Hout | apply Hresp, Hout].
    + rewrite (has_ref_violates db row Href) in Hv. discriminate Hv.
  - intros Hst Hc Hv.
    destruct Hcases as [Hout | (_ & _ & _ & Hout)].
    + exfalso.
      destruct (refund_task_step e db tid uid t Ht Hu Hst Hc)
        as [[_ Hv'] | (u & _ & _ & Hr)].
      * fold row in Hv'. rewrite Hv in Hv'. discriminate Hv'.
      * fold out in Hr. rewrite Hr in Hout. discriminate Hout.
    + split; [exact Hout |].
      destruct out as [r d] eqn:Eo. cbn in Hout. subst r.
      rewrite (Hresp true d eq_refl). reflexivity.
Qed.

(** ** The rate gate *)

Lemma survives_iff (z : list RateLimiter.Entry) (bound : Q)
    (x : RateLimiter.Entry) :
  In x (RateLimiter.ZREMRANGEBYSCORE z bound)
  ↔ In x z ∧ (bound < RateLimiter.score x)%Q.
Proof.
  unfold RateLimiter.ZREMRANGEBYSCORE. rewrite filter_In, negb_true_iff.
  split; intros [Hin H]; (split; [exact Hin |]).
  - apply Qnot_le_lt. intros Hle. apply Qle_bool_iff in Hle. congruence.
  - destruct (Qle_bool (RateLimiter.score x) bound) eqn:E; [| reflexivity].
    apply Qle_bool_iff in E. exfalso. exact (Qlt_not_le _ _ H E).
Qed.

(** [oldest] is the least score of the set, and a set with an entry has one. *)
Lemma oldest_spec (z : list RateLimiter.Entry) (o : Q) :
  RateLimiter.oldest z = Some o →
  (∃ x, In x z ∧ RateLimiter.score x = o) ∧
  (∀ x, In x z → (o <= RateLimiter.score x)%Q).
Proof.
  revert o. induction z as [| y z IH]; intros o; [discriminate |].
  cbn [RateLimiter.oldest].
  destruct (RateLimiter.oldest z) as [o' |] eqn:Ho.
  - destruct (IH o' eq_refl) as [(x & Hx & Hs) Hmin].
    destruct (Qle_bool (RateLimiter.score y) o') eqn:E; intros [= <-].
    + apply Qle_bool_iff in E. split; [exists y; cbn; auto |].
      intros x' [<- | Hx']; [apply Qle_refl |].
      exact (Qle_trans _ _ _ E (Hmin x' Hx')).
    + split; [exists x; cbn; auto |].
      intros x' [<- | Hx']; [| exact (Hmin x' Hx')].
      apply Qlt_le_weak, Qnot_le_lt. intros Hle.
      apply Qle_bool_iff in Hle. congruence.
  - intros [= <-]. destruct z as [| w z]; [| cbn in Ho;
      destruct (RateLimiter.oldest z); discriminate Ho].
    split; [exists y; cbn; auto |].
    intros x' [<- | []]. apply Qle_refl.
Qed.

Lemma oldest_nonempty (z : list RateLimiter.Entry) :
  z ≠ [] → ∃ o, RateLimiter.oldest z = Some o.
Proof.
  destruct z as [| y z]; [congruence | intros _].
  cbn. destruct (RateLimiter.oldest z); eauto.
Qed.

Lemma Qceiling_pos (x : Q) : (0 < x)%Q → 0 < Qceiling x.
Proof.
  intros Hx. assert (H := Qle_ceiling x).
  assert (H' : (inject_Z 0 < inject_Z (Qceiling x))%Q)
    by exact (Qlt_le_trans _ _ _ Hx H).
  rewrite <- Zlt_Qlt in H'. exact H'.
Qed.

(** The script on one sorted set. *)
Lemma lua_script_spec (z : list RateLimiter.Entry) (now : Q)
    (max_requests window_seconds : Z) (m : string) :
  let bound := (now - inject_Z window_seconds)%Q in
  let survivors := RateLimiter.ZREMRANGEBYSCORE z bound in
  let out :=
    RateLimiter.lua_script z now bound max_requests window_seconds m in
  (RateLimiter.ZCARD survivors < max_requests →
     out = (RateLimiter.ZADD survivors now m,
            (1, max_requests - RateLimiter.ZCARD survivors - 1, 0))) ∧
  (max_requests ≤ RateLimiter.ZCARD survivors →
     ∃ retry_after,
       out = (survivors, (0, 0, retry_after)) ∧
       retry_after =
         match RateLimiter.oldest survivors with
         | Some o => Qceiling (o + inject_Z window_seconds - now)
         | None => 0
         end ∧
       (0 < max_requests → 0 < retry_after)).
Proof.
  intros bound survivors out. subst out. unfold RateLimiter.lua_script.
  fold survivors. split; intros H.
  - destruct (Z.ltb_spec (RateLimiter.ZCARD survivors) max_requests);
      [reflexivity | lia].
  - destruct (Z.ltb_spec (RateLimiter.ZCARD survivors) max_requests); [lia |].
    eexists. split; [reflexivity |]. split; [reflexivity |].
    intros Hpos.
    assert (Hne : survivors ≠ []).
    { intros E. rewrite E in H. unfold RateLimiter.ZCARD in H. cbn in H. lia. }
    destruct (oldest_nonempty survivors Hne) as [o Ho]. rewrite Ho.
    destruct (oldest_spec survivors o Ho) as [(x & Hx & Hs) _].
    apply survives_iff in Hx as [_ Hx]. rewrite Hs in Hx.
    apply Qceiling_pos. unfold bound in Hx. lra.
Qed.

Lemma is_allowed_unfold (prefix : string)
    (store : gmap string (list RateLimiter.Entry)) (now : Q) (m key : string)
    (max_requests window_seconds : Z) :
  let rk := prefix +:+ ":" +:+ key in
  let r :=
    RateLimiter.lua_script (RateLimiter.zset_of store rk) now
      (now - inject_Z window_seconds)%Q max_requests window_seconds m in
  RateLimiter.is_allowed prefix store now m key max_requests window_seconds
  = (<[rk := r.1]> store, (negb (r.2.1.1 =? 0), r.2.1.2, r.2.2)).
Proof.
  intros rk r. unfold RateLimiter.is_allowed. fold rk. fold r.
  destruct r as [z' [[a rem] ra]]. reflexivity.
Qed.

Lemma zset_of_insert (store : gmap string (list RateLimiter.Entry))
    (k k' : string) (z : list RateLimiter.Entry) :
  RateLimiter.zset_of (<[k := z]> store) k' =
    if decide (k = k') then z else RateLimiter.zset_of store k'.
Proof.
  unfold RateLimiter.zset_of. rewrite lookup_insert.
  destruct (decide (k = k')); reflexivity.
Qed.

Lemma survive_all (z : list RateLimiter.Entry) (bound : Q) :
  (∀ x, In x z → (bound < RateLimiter.score x)%Q) →
  RateLimiter.ZREMRANGEBYSCORE z bound = z.
Proof.
  intros H. unfold RateLimiter.ZREMRANGEBYSCORE.
  induction z as [| y z IH]; [reflexivity |]. cbn.
  destruct (Qle_bool (RateLimiter.score y) bound) eqn:E.
  - apply Qle_bool_iff in E. exfalso.
    exact (Qlt_not_le _ _ (H y (or_introl eq_refl)) E).
  - cbn. f_equal. apply IH. intros x Hx. apply H. right. exact Hx.
Qed.

Lemma ZADD_fresh (z : list RateLimiter.Entry) (sc : Q) (m : string) :
  (∀ x, In x z → RateLimiter.member x ≠ m) →
  RateLimiter.ZADD z sc m
  = {| RateLimiter.member := m; RateLimiter.score := sc |} :: z.
Proof.
  intros H. unfold RateLimiter.ZADD. f_equal.
  induction z as [| y z IH]; [reflexivity |]. cbn.
  rewrite bool_decide_eq_false_2 by (apply H; left; reflexivity).
  cbn. f_equal. apply IH. intros x Hx. apply H. right. exact Hx.
Qed.

(** A check that finds every entry inside the window and room for one more. *)
Lemma is_allowed_admits (prefix : string)
    (store : gmap string (list RateLimiter.Entry)) (now : Q) (m key : string)
    (max_requests window_seconds : Z) (z : list RateLimiter.Entry) :
  RateLimiter.zset_of store (prefix +:+ ":" +:+ key) = z →
  (∀ x, In x z → (now - inject_Z window_seconds < RateLimiter.score x)%Q) →
  (∀ x, In x z → RateLimiter.member x ≠ m) →
  RateLimiter.ZCARD z < max_requests →
  RateLimiter.is_allowed prefix store now m key max_requests window_seconds
  = (<[prefix +:+ ":" +:+ key :=
         {| RateLimiter.member := m; RateLimiter.score := now |} :: z]> store,
     (true, max_requests - RateLimiter.ZCARD z - 1, 0)).
Proof.
  intros Hz Hin Hm Hc. rewrite is_allowed_unfold. cbv zeta. rewrite Hz.
  destruct (lua_script_spec z now max_requests window_seconds m) as [Ha _].
  cbv zeta in Ha. rewrite (survive_all z _ Hin) in Ha.
  rewrite (Ha Hc), (ZADD_fresh z now m Hm). reflexivity.
Qed.

(** A check that finds every entry inside the window and no room. *)
Lemma is_allowed_rejects (prefix : string)
    (store : gmap string (list RateLimiter.Entry)) (now : Q) (m key : string)
    (max_requests window_seconds : Z) (z : list RateLimiter.Entry) :
  RateLimiter.zset_of store (prefix +:+ ":" +:+ key) = z →
  (∀ x, In x z → (now - inject_Z window_seconds < RateLimiter.score x)%Q) →
  max_requests ≤ RateLimiter.ZCARD z → 0 < max_requests →
  ∃ retry_after,
    RateLimiter.is_allowed prefix store now m key max_requests window_seconds
    = (<[prefix +:+ ":" +:+ key := z]> store, (false, 0, retry_after)) ∧
    0 < retry_after.
Proof.
  intros Hz Hin Hc Hpos. rewrite is_allowed_unfold. cbv zeta. rewrite Hz.
  destruct (lua_script_spec z now max_requests window_seconds m) as [_ Hr].
  cbv zeta in Hr. rewrite (survive_all z _ Hin) in Hr.
  destruct (Hr Hc) as (ra & Hout & _ & Hra). rewrite Hout.
  exists ra. split; [reflexivity | exact (Hra Hpos)].
Qed.


(** * The theorems at concrete inputs *)

(** Account A holds 5 and the price is 10: the completion of job J is
    refused and nothing changes. *)
Lemma complete_task_insufficient_balance_witness :
  let db := db_one 5 PROCESSING None 0 [] in
  let out :=
    session.run
      (TaskService.complete_task cfg10 (an_env "tx-9" 9) "J" "tok") db in
  (0 < price_per_task cfg10 ∧ 5 < price_per_task cfg10) ∧
  out.1 = inl (InsufficientBalanceError 10 0) ∧
  out.2 = db ∧
  status <$> tasks out.2 !! "J" = Some PROCESSING ∧
  balance_of out.2 "A" = Some 5 ∧
  transactions out.2 = [].
Proof.
  cbv zeta. split; [cbn; lia |].
  apply (complete_task_insufficient_balance cfg10 (an_env "tx-9" 9)
           (db_one 5 PROCESSING None 0 []) "J"
           (a_task "J" "A" PROCESSING None 0) (a_user "A" 5) "tok");
    [reflexivity | reflexivity | reflexivity | cbn; lia | cbn; lia].
Defined.

(** Account A holds 100 and the price is 10: job J is settled, the account
    holds 90 and the ledger has one DEDUCT row of -10. *)
Lemma complete_task_deducts_and_settles_witness :
  let db := db_one 100 PROCESSING None 0 [] in
  let out :=
    session.run
      (TaskService.complete_task cfg10 (an_env "tx-9" 9) "J" "tok") db in
  (0 ≤ price_per_task cfg10 ∧ price_per_task cfg10 ≤ 100 ∧
   has_ref db "J" "TASK" = false) ∧
  balance_of out.2 "A" = Some 90 ∧
  (λ t, (tx_type t, amount t, balance_after t, ref_key t))
    <$> transactions out.2 = [(DEDUCT, -10, 90, ("J", "TASK"))] ∧
  (λ t, (status t, token t, cost t)) <$> tasks out.2 !! "J"
    = Some (READY, Some "tok", 10).
Proof.
  cbv zeta. split; [cbn; repeat split; lia |].
  pose proof (complete_task_deducts_and_settles cfg10 (an_env "tx-9" 9)
                (db_one 100 PROCESSING None 0 []) "J"
                (a_task "J" "A" PROCESSING None 0) (a_user "A" 100) "tok"
                eq_refl eq_refl eq_refl eq_refl) as H.
  cbv zeta in H.
  destruct H as (_ & _ & Htx & Hts & Hbal & _ & _);
    [cbn; lia | cbn; lia | reflexivity | constructor |].
  split; [exact Hbal |]. rewrite Htx, Hts. split; reflexivity.
Defined.




(** Job J of [db_two] is PENDING: the request is answered
    "already_refunded" and nothing changes. *)
Lemma refund_task_has_two_outcomes_witness :
  session.run (TaskService.refund_task (an_env "tx-9" 9) "J" "A") db_two
    = (inr false, db_two) ∧
  session.run (report_incorrect (an_env "tx-9" 9) "J" "A") db_two
    = (inr {| errorId := 0; errorCode := None;
              response_status := Some "already_refunded" |}, db_two).
Proof.
  destruct (refund_task_has_two_outcomes (an_env "tx-9" 9) db_two "J" "A"
              (a_task "J" "A" PENDING None 0) eq_refl eq_refl)
    as (_ & Hno & _).
  apply Hno. left. discriminate.
Defined.


(** * Further properties of the code *)

(** ** The status table and the entity *)

(** X1.  A status is terminal exactly when the table allows no transition
    out of it; and an allowed transition never leads back to PENDING, never
    stays where it is, and leads to a terminal status unless it starts from
    PENDING. *)
Theorem terminal_iff_no_transition_out (s : TaskStatus) :
  (TaskStatus.is_terminal s = true
   ↔ ∀ t, TaskStatus.can_transition_to s t = false) ∧
  (∀ t, TaskStatus.can_transition_to s t = true →
        t ≠ PENDING ∧ t ≠ s ∧
        (s = PENDING ∨ TaskStatus.is_terminal t = true)).
Proof.
  split.
  - split.
    + intros H t. apply can_transition_from_terminal, H.
    + intros H. destruct s; try reflexivity.
      * discriminate (H PROCESSING).
      * discriminate (H READY).
  - intros t H. destruct s, t; try discriminate H;
      repeat split; try discriminate; auto.
Qed.

(** X2.  The three entity operations succeed from exactly the states the
    table allows, and then set the fields that go with the new status;
    from any other state they raise [InvalidStateTransitionError] naming
    both states. *)
Theorem entity_operations_by_status (e : Env) (t : Task) (tok code : string)
    (c : Z) (desc : option string) :
  Task.start_processing e t =
    (if bool_decide (status t = PENDING)
     then inr (Task.set_started_at (Task.set_status t PROCESSING)
                 (Some (utcnow e)))
     else inl (InvalidStateTransitionError (TaskStatus.value (status t))
                 "processing")) ∧
  Task.complete e t tok c =
    (if bool_decide (status t = PROCESSING)
     then inr (Task.set_completed_at
                 (Task.set_cost
                    (Task.set_token (Task.set_status t READY) (Some tok)) c)
                 (Some (utcnow e)))
     else inl (InvalidStateTransitionError (TaskStatus.value (status t))
                 "ready")) ∧
  Task.fail e t code desc =
    (if bool_decide (status t = PENDING ∨ status t = PROCESSING)
     then inr (Task.set_completed_at
                 (Task.set_error_desc
                    (Task.set_error_code (Task.set_status t FAILED)
                       (Some code)) desc)
                 (Some (utcnow e)))
     else inl (InvalidStateTransitionError (TaskStatus.value (status t))
                 "failed")).
Proof.
  unfold Task.start_processing, Task.complete, Task.fail, Task.transition_to.
  destruct (status t) eqn:E; repeat split.
Qed.

(** Settle the many small goals about fields of a task from the facts at
    hand. *)
Ltac fields :=
  repeat split; intros; cbn in *;
  repeat match goal with
         | H : is_Some None |- _ => destruct H as [? H]; discriminate H
         | H : _ ∨ _ |- _ => destruct H
         | H1 : ?P → _, H2 : ?P |- _ => specialize (H1 H2)
         | H1 : ?P ↔ _, H2 : ?P |- _ => apply H1 in H2
         end;
  try discriminate; try congruence; try lia; eauto.

Lemma lifecycle_ok_create (e : Env) (u : UUID) (ty : TaskType) (k : string)
    (url dom : option string) (ent : bool) :
  lifecycle_ok (Task.create e u ty k url dom ent) ∧
  lifecycle_complete (Task.create e u ty k url dom ent).
Proof. unfold lifecycle_ok, lifecycle_complete. fields. Qed.

Lemma lifecycle_ok_after_op (t : Task) (op : TaskOp) :
  lifecycle_ok t → lifecycle_ok (after_op t op).
Proof.
  intros H. unfold after_op, call_op.
  destruct op as [e | e tok c | e code desc | | st].
  - destruct (entity_operations_by_status e t "" "" 0 None) as (-> & _ & _).
    destruct (decide (status t = PENDING)) as [E | E];
      [rewrite bool_decide_eq_true_2 by exact E
      | rewrite bool_decide_eq_false_2 by exact E; exact H].
    destruct H as (Hc & Htok & Herr & Hdesc & Hcomp & Hst & Hr).
    unfold lifecycle_ok. rewrite E in *. fields.
  - destruct (entity_operations_by_status e t tok "" c None) as (_ & -> & _).
    destruct (decide (status t = PROCESSING)) as [E | E];
      [rewrite bool_decide_eq_true_2 by exact E
      | rewrite bool_decide_eq_false_2 by exact E; exact H].
    destruct H as (Hc & Htok & Herr & Hdesc & Hcomp & Hst & Hr).
    unfold lifecycle_ok. rewrite E in *. fields.
  - destruct (entity_operations_by_status e t "" code 0 desc) as (_ & _ & ->).
    destruct (decide (status t = PENDING ∨ status t = PROCESSING)) as [E | E];
      [rewrite bool_decide_eq_true_2 by exact E
      | rewrite bool_decide_eq_false_2 by exact E; exact H].
    destruct H as (Hc & Htok & Herr & Hdesc & Hcomp & Hst & Hr).
    unfold lifecycle_ok. destruct E as [E | E]; rewrite E in *; fields.
  - destruct H as (Hc & Htok & Herr & Hdesc & Hcomp & Hst & Hr).
    unfold lifecycle_ok. cbn. repeat split; try tauto; lia.
  - unfold Task.transition_to.
    destruct (TaskStatus.can_transition_to (status t) st) eqn:Hcan;
      [| exact H].
    destruct H as (Hc & Htok & Herr & Hdesc & Hcomp & Hst & Hr).
    unfold lifecycle_ok.
    destruct (status t) eqn:E, st; try discriminate Hcan; fields.
Qed.

Lemma lifecycle_complete_after_op (t : Task) (op : TaskOp) :
  named_operation op = true →
  lifecycle_complete t → lifecycle_complete (after_op t op).
Proof.
  intros Hop H. unfold after_op, call_op.
  destruct op as [e | e tok c | e code desc | | st]; [| | | | discriminate Hop].
  - destruct (entity_operations_by_status e t "" "" 0 None) as (-> & _ & _).
    destruct (decide (status t = PENDING)) as [E | E];
      [rewrite bool_decide_eq_true_2 by exact E
      | rewrite bool_decide_eq_false_2 by exact E; exact H].
    unfold lifecycle_complete. fields.
  - destruct (entity_operations_by_status e t tok "" c None) as (_ & -> & _).
    destruct (decide (status t = PROCESSING)) as [E | E];
      [rewrite bool_decide_eq_true_2 by exact E
      | rewrite bool_decide_eq_false_2 by exact E; exact H].
    destruct H as (Htok & Herr & Hcomp & Hst).
    unfold lifecycle_complete. rewrite E in *. fields.
  - destruct (entity_operations_by_status e t "" code 0 desc) as (_ & _ & ->).
    destruct (decide (status t = PENDING ∨ status t = PROCESSING)) as [E | E];
      [rewrite bool_decide_eq_true_2 by exact E
      | rewrite bool_decide_eq_false_2 by exact E; exact H].
    unfold lifecycle_complete. fields.
  - exact H.
Qed.


Lemma after_op_terminal (t : Task) (op : TaskOp) :
  TaskStatus.is_terminal (status t) = true →
  after_op t op =
    match op with OpRetry => Task.increment_retry t | _ => t end.
Proof.
  intros H. unfold after_op, call_op.
  destruct (entity_refuses_settled
              match op with OpStart e | OpComplete e _ _ | OpFail e _ _ => e
                          | _ => an_env "" 0 end
              t
              match op with OpComplete _ tok _ => tok | _ => "" end
              match op with OpFail _ code _ => code | _ => "" end
              match op with OpComplete _ _ c => c | _ => 0 end
              match op with OpFail _ _ d => d | _ => None end H)
    as (H1 & H2 & H3).
  destruct op as [e | e tok c | e code desc | | st];
    [rewrite H1 | rewrite H2 | rewrite H3 |
     | rewrite (transition_to_terminal_raises t st H)]; reflexivity.
Qed.

(** X4.  A task that is READY or FAILED is beyond the reach of the entity
    operations: whatever is called on it afterwards, only its retry counter
    moves, by one for each [increment_retry]; status, result, cost and error
    stay as they were. *)
Theorem settled_task_only_counts_retries (t : Task) (ops : list TaskOp) :
  TaskStatus.is_terminal (status t) = true →
  after_ops t ops = Task.set_retry_count t (retry_count t + retries ops).
Proof.
  unfold after_ops. revert t.
  induction ops as [| op ops IH]; intros t H.
  - destruct t. cbn. unfold Task.set_retry_count. cbn. f_equal.
    unfold retries. cbn. lia.
  - cbn [foldl]. rewrite (after_op_terminal t op H).
    assert (Hr : retries (op :: ops) =
                 (match op with OpRetry => 1 | _ => 0 end) + retries ops).
    { unfold retries. destruct op; cbn [List.filter length]; lia. }
    rewrite Hr. destruct op.
    1-3, 5: rewrite (IH t H); f_equal; lia.
    rewrite (IH (Task.increment_retry t) H).
    unfold Task.increment_retry, Task.set_retry_count. cbn. f_equal. lia.
Qed.

Lemma settled_task_only_counts_retries_witness :
  let t := a_task "J" "A" READY (Some "tok") 10 in
  let t' :=
    after_ops t
      [OpFail (an_env "x" 3) "INTERNAL_ERROR" None; OpRetry;
       OpComplete (an_env "y" 4) "other" 99; OpRetry;
       OpStart (an_env "z" 5)] in
  TaskStatus.is_terminal (status t) = true ∧
  t' = Task.set_retry_count t 2.
Proof.
  cbv zeta. split; [reflexivity |].
  exact (settled_task_only_counts_retries
           (a_task "J" "A" READY (Some "tok") 10)
           [OpFail (an_env "x" 3) "INTERNAL_ERROR" None; OpRetry;
            OpComplete (an_env "y" 4) "other" 99; OpRetry;
            OpStart (an_env "z" 5)] eq_refl).
Defined.

(** ** Task types *)

Lemma normalize_value (m : TaskType) :
  TaskType.normalize (TaskType.value m) = TaskType.value m.
Proof. destruct m; reflexivity. Qed.

Lemma value_inj (m m' : TaskType) :
  TaskType.value m = TaskType.value m' → m = m'.
Proof. destruct m, m'; intros H; try reflexivity; discriminate H. Qed.

(** X5.  [from_string] accepts exactly the names that, once every
    "Proxyless" and then every "proxyless" is taken out, are the value of a
    member, and returns that member; every other name raises [ValueError].
    So each member is read back from its own value, and from its value with
    "Proxyless" appended. *)
Theorem from_string_accepts_normalized_names (v : string) (m : TaskType) :
  (TaskType.from_string v = inr m
   ↔ TaskType.value m = TaskType.normalize v) ∧
  ((∀ m', TaskType.value m' ≠ TaskType.normalize v) →
   TaskType.from_string v = inl (ValueError ("Unknown task type: " +:+ v))) ∧
  TaskType.from_string (TaskType.value m) = inr m ∧
  TaskType.from_string (TaskType.value m +:+ "Proxyless") = inr m.
Proof.
  assert (Hfound : ∀ m', TaskType.from_string v = inr m' →
                         TaskType.value m' = TaskType.normalize v).
  { intros m'. unfold TaskType.from_string.
    destruct (List.find _ TaskType.members) as [x |] eqn:F; [| discriminate].
    intros [= ->]. apply find_some in F as [_ F].
    apply orb_true_iff in F as [F | F]; apply bool_decide_eq_true in F.
    - exact F.
    - rewrite <- F, normalize_value. reflexivity. }
  assert (Hsome : ∀ m', TaskType.value m' = TaskType.normalize v →
                        TaskType.from_string v = inr m').
  { intros m' Hv.
    destruct (TaskType.from_string v) as [x | m''] eqn:F.
    - exfalso. unfold TaskType.from_string in F.
      destruct (List.find _ TaskType.members) as [y |] eqn:F';
        [discriminate |].
      assert (Hin : In m' TaskType.members)
        by (destruct m'; cbn; tauto).
      pose proof (find_none _ _ F' m' Hin) as Hn. cbn in Hn.
      rewrite bool_decide_eq_true_2 in Hn by exact Hv. discriminate Hn.
    - f_equal. apply value_inj. rewrite (Hfound m'' eq_refl). symmetry. exact Hv. }
  split; [split; [apply Hfound | apply Hsome] |]. split; [| split].
  - intros Hnone. destruct (TaskType.from_string v) as [x | m'] eqn:F.
    + unfold TaskType.from_string in F.
      destruct (List.find _ TaskType.members); [discriminate |].
      symmetry. exact F.
    + exfalso. exact (Hnone m' (Hfound m' eq_refl)).
  - destruct m; reflexivity.
  - destruct m; reflexivity.
Qed.

(** ** What each service call commits *)

Lemma deduct_balance_unfold (e : Env) (uid : UUID) (a : Z) (tid : string)
    (d : option string) (ac : bool) (s : Session) :
  BillingService.deduct_balance e uid a tid d ac s =
  match users (working s) !! uid with
  | Some u =>
      if UserRepository.balance_suffices (- Z.abs a) u then
        let nb := balance u + - Z.abs a in
        let w1 :=
          set_users (working s)
            (<[uid := User.set_balance u nb]> (users (working s))) in
        let row :=
          Transaction.create_deduct e uid a nb tid
            (Some (or_default d
                     ("Task " +:+ String.substring 0 8 tid +:+ "..."))) in
        if violates_constraints w1 row
        then (inl IntegrityError, set_working s (committed s))
        else
          let w2 := set_transactions w1 (transactions w1 ++ [row]) in
          (inr nb,
           if ac then {| committed := w2; working := w2 |}
           else set_working s w2)
      else (inl (InsufficientBalanceError a 0), s)
  | None => (inl (InsufficientBalanceError a 0), s)
  end.
Proof.
  unfold BillingService.deduct_balance.
  unfold mbind at 1. unfold M_bind at 1.
  unfold UserRepository.update_balance_atomic.
  destruct (users (working s) !! uid) as [u |]; [| reflexivity].
  destruct (UserRepository.balance_suffices (- Z.abs a) u); [| reflexivity].
  cbv zeta. unfold TransactionRepository.save, mbind, M_bind, add_and_flush.
  db_simpl.
  destruct (violates_constraints _ _); [reflexivity |].
  destruct ac; reflexivity.
Qed.

Lemma complete_task_run (cfg : Settings) (e : Env) (db : Db) (tid : UUID)
    (tok : string) :
  session.run (TaskService.complete_task cfg e tid tok) db =
  match tasks db !! tid with
  | None => (inl (EntityNotFoundError "Task" tid), db)
  | Some t =>
      let p := price_per_task cfg in
      match users db !! task_user_id t with
      | Some u =>
          if UserRepository.balance_suffices (- Z.abs p) u then
            let nb := balance u + - Z.abs p in
            let us := <[task_user_id t := User.set_balance u nb]> (users db) in
            let row :=
              Transaction.create_deduct e (task_user_id t) p nb (task_id t)
                (Some ("Task " +:+ String.substring 0 8 (task_id t)
                         +:+ "...")) in
            if violates_constraints (set_users db us) row
            then (inl IntegrityError, db)
            else
              let t' :=
                TaskRepository.apply_values e READY (Some tok) (Some p)
                  None None t in
              (inr t',
               {| users := us; tasks := <[tid := t']> (tasks db);
                  transactions := (transactions db ++ [row])%list |})
          else (inl (InsufficientBalanceError p 0), db)
      | None => (inl (InsufficientBalanceError p 0), db)
      end
  end.
Proof.
  unfold session.run, TaskService.complete_task.
  unfold mbind at 1. unfold M_bind at 1.
  unfold TaskRepository.get_by_id at 1. db_simpl.
  destruct (tasks db !! tid) as [t |] eqn:Ht; [| reflexivity].
  unfold mbind at 1. unfold M_bind at 1. unfold try_except.
  unfold mbind at 1. unfold M_bind at 1.
  rewrite deduct_balance_unfold. db_simpl. unfold Task.id.
  destruct (users db !! task_user_id t) as [u |]; [| reflexivity].
  destruct (UserRepository.balance_suffices _ u); [| reflexivity].
  cbv zeta. unfold or_default at 1.
  destruct (violates_constraints _ _); [reflexivity |].
  unfold mbind, M_bind, TaskRepository.update_status. db_simpl.
  rewrite Ht. unfold session.commit. db_simpl.
  unfold TaskService.get_task_by_id, mbind, M_bind, TaskRepository.get_by_id.
  db_simpl. rewrite lookup_insert_eq. reflexivity.
Qed.

(** The constraints as they read once the balance of the owner is adjusted:
    only the two uniqueness constraints are left to fail. *)
Lemma violates_after_balance (db : Db) (u' : User) (row : Transaction) :
  violates_constraints
    (set_users db (<[tx_user_id row := u']> (users db))) row
  = existsb (λ x, bool_decide (tx_id x = tx_id row)) (transactions db) ||
    has_ref db (reference_id row) (reference_type row).
Proof.
  unfold violates_constraints. db_simpl. rewrite lookup_insert_eq.
  rewrite bool_decide_eq_false_2 by discriminate.
  rewrite orb_false_r. f_equal.
  exact (existsb_same_ref db row).
Qed.

Lemma deposit_run (e : Env) (uid : UUID) (a : Z) (pid : string)
    (d : option string) (db : Db) :
  session.run (BillingService.deposit e uid a pid d) db =
  match users db !! uid with
  | Some u =>
      let nb := balance u + Z.abs a in
      let us := <[uid := User.set_balance u nb]> (users db) in
      let row :=
        Transaction.create_deposit e uid a nb pid
          (Some (or_default d
                   ("Deposit from payment " +:+ String.substring 0 8 pid
                      +:+ "..."))) in
      if violates_constraints (set_users db us) row
      then (inl IntegrityError, db)
      else (inr nb,
            {| users := us; tasks := tasks db;
               transactions := (transactions db ++ [row])%list |})
  | None => (inl (ValueError ("User not found: " +:+ uid)), db)
  end.
Proof.
  unfold session.run, BillingService.deposit.
  unfold mbind at 1. unfold M_bind at 1.
  unfold UserRepository.update_balance_atomic. db_simpl.
  destruct (users db !! uid) as [u |]; [| reflexivity].
  rewrite balance_suffices_credit by apply Z.abs_nonneg.
  cbv zeta. unfold TransactionRepository.save, mbind, M_bind, add_and_flush.
  db_simpl.
  destruct (violates_constraints _ _); reflexivity.
Qed.

Lemma deduct_balance_run (e : Env) (uid : UUID) (a : Z) (tid : string)
    (d : option string) (ac : bool) (db : Db) :
  session.run (BillingService.deduct_balance e uid a tid d ac) db =
  match users db !! uid with
  | Some u =>
      if UserRepository.balance_suffices (- Z.abs a) u then
        let nb := balance u + - Z.abs a in
        let us := <[uid := User.set_balance u nb]> (users db) in
        let row :=
          Transaction.create_deduct e uid a nb tid
            (Some (or_default d
                     ("Task " +:+ String.substring 0 8 tid +:+ "..."))) in
        if violates_constraints (set_users db us) row
        then (inl IntegrityError, db)
        else (inr nb,
              if ac
              then {| users := us; tasks := tasks db;
                      transactions := (transactions db ++ [row])%list |}
              else db)
      else (inl (InsufficientBalanceError a 0), db)
  | None => (inl (InsufficientBalanceError a 0), db)
  end.
Proof.
  unfold session.run. rewrite deduct_balance_unfold. db_simpl.
  destruct (users db !! uid) as [u |]; [| reflexivity].
  destruct (UserRepository.balance_suffices _ u); [| reflexivity].
  cbv zeta. destruct (violates_constraints _ _); [reflexivity |].
  destruct ac; reflexivity.
Qed.

Lemma create_task_run (cfg : Settings) (e : Env) (uid : UUID)
    (ty : TaskType) (k : string) (url dom : option string) (ent : bool)
    (db : Db) :
  session.run (TaskService.create_task cfg e uid ty k url dom ent) db =
  match users db !! uid with
  | None => (inl (EntityNotFoundError "User" uid), db)
  | Some u =>
      if price_per_task cfg <=? balance u then
        let task := Task.create e uid ty k url dom ent in
        if bool_decide (is_Some (tasks db !! uuid4 e))
        then (inl IntegrityError, db)
        else (inr task, set_tasks db (<[uuid4 e := task]> (tasks db)))
      else (inl (InsufficientBalanceError (price_per_task cfg) (balance u)),
            db)
  end.
Proof.
  unfold session.run, TaskService.create_task.
  unfold mbind at 1. unfold M_bind at 1.
  unfold UserRepository.get_by_id. db_simpl.
  destruct (users db !! uid) as [u |] eqn:Hu; [| reflexivity].
  unfold User.can_afford.
  destruct (price_per_task cfg <=? balance u); [| reflexivity].
  cbn [negb]. cbv zeta. unfold mbind, M_bind, TaskRepository.save.
  db_simpl. cbn [task_id task_user_id Task.create].
  rewrite Hu. rewrite (bool_decide_eq_false_2 (Some u = None)) by discriminate.
  rewrite orb_false_r.
  destruct (bool_decide (is_Some (tasks db !! uuid4 e))); reflexivity.
Qed.

Lemma start_processing_run (e : Env) (tid : UUID) (db : Db) :
  session.run (TaskService.start_processing e tid) db =
  match tasks db !! tid with
  | Some t =>
      (inr true,
       set_tasks db
         (<[tid := TaskRepository.apply_values e PROCESSING None None None
                     None t]> (tasks db)))
  | None => (inr false, db)
  end.
Proof.
  unfold session.run, TaskService.start_processing, mbind, M_bind.
  unfold TaskRepository.update_status. db_simpl.
  destruct (tasks db !! tid); reflexivity.
Qed.

Lemma fail_task_run (e : Env) (tid : UUID) (code : string)
    (desc : option string) (db : Db) :
  session.run (TaskService.fail_task e tid code desc) db =
  match tasks db !! tid with
  | Some t =>
      let t' :=
        TaskRepository.apply_values e FAILED None None (Some code) desc t in
      (inr t', set_tasks db (<[tid := t']> (tasks db)))
  | None => (inl (EntityNotFoundError "Task" tid), db)
  end.
Proof.
  unfold session.run, TaskService.fail_task, mbind, M_bind.
  unfold TaskRepository.update_status, session.commit,
    TaskService.get_task_by_id, mbind, M_bind, TaskRepository.get_by_id.
  db_simpl.
  destruct (tasks db !! tid) as [t |] eqn:Ht; db_simpl.
  - rewrite lookup_insert_eq. reflexivity.
  - rewrite Ht. reflexivity.
Qed.

Lemma refund_task_run (e : Env) (tid uid : UUID) (db : Db) :
  session.run (TaskService.refund_task e tid uid) db =
  match tasks db !! tid with
  | Some t =>
      if bool_decide (task_user_id t = uid) then
        if bool_decide (status t = READY) && negb (cost t <=? 0) then
          let r :=
            session.run (BillingService.refund e uid (cost t) tid None) db in
          (match r.1 with inl _ => inr false | inr _ => inr true end, r.2)
        else (inr false, db)
      else (inl (EntityNotFoundError "Task" tid), db)
  | None => (inl (EntityNotFoundError "Task" tid), db)
  end.
Proof.
  destruct (tasks db !! tid) as [t |] eqn:Ht.
  - destruct (decide (task_user_id t = uid)) as [Hu | Hu].
    + rewrite bool_decide_eq_true_2 by exact Hu.
      destruct (decide (status t = READY)) as [Hs | Hs].
      * rewrite bool_decide_eq_true_2 by exact Hs.
        destruct (Z.leb_spec (cost t) 0) as [Hc | Hc]; cbn [andb negb].
        -- unfold session.run, TaskService.refund_task, TaskService.get_task.
           unfold mbind, M_bind, TaskRepository.get_by_id_and_user. db_simpl.
           rewrite Ht, bool_decide_eq_true_2 by exact Hu.
           unfold mret, M_ret.
           rewrite bool_decide_eq_true_2 by exact Hs. cbn [negb].
           destruct (Z.leb_spec (cost t) 0); [reflexivity | lia].
        -- exact (refund_task_eligible e db tid uid t Ht Hu Hs Hc).
      * rewrite bool_decide_eq_false_2 by exact Hs. cbn [andb].
        unfold session.run, TaskService.refund_task, TaskService.get_task.
        unfold mbind, M_bind, TaskRepository.get_by_id_and_user. db_simpl.
        rewrite Ht, bool_decide_eq_true_2 by exact Hu.
        unfold mret, M_ret.
        rewrite bool_decide_eq_false_2 by exact Hs. reflexivity.
    + rewrite bool_decide_eq_false_2 by exact Hu.
      unfold session.run, TaskService.refund_task, TaskService.get_task.
      unfold mbind, M_bind, TaskRepository.get_by_id_and_user. db_simpl.
      rewrite Ht, bool_decide_eq_false_2 by exact Hu. reflexivity.
  - unfold session.run, TaskService.refund_task, TaskService.get_task.
    unfold mbind, M_bind, TaskRepository.get_by_id_and_user. db_simpl.
    rewrite Ht. reflexivity.
Qed.

Lemma refund_run (e : Env) (uid : UUID) (a : Z) (tid : string)
    (d : option string) (db : Db) :
  let row :=
    Transaction.create_refund e uid a 0 tid
      (Some (or_default d
               ("Refund for task " +:+ String.substring 0 8 tid +:+ "..."))) in
  session.run (BillingService.refund e uid a tid d) db =
  if violates_constraints db row
  then (inl (RefundAlreadyProcessedError tid), db)
  else
    match users db !! uid with
    | Some u =>
        (inr (balance u + Z.abs a),
         {| users := <[uid := User.set_balance u (balance u + Z.abs a)]>
                       (users db);
            tasks := tasks db;
            transactions := (transactions db ++ [row])%list |})
    | None => (inl (ValueError ("User not found: " +:+ uid)), db)
    end.
Proof.
  intros row. destruct (violates_constraints db row) eqn:Hv.
  - exact (refund_refused e uid a tid d db Hv).
  - destruct (refund_done e uid a tid d db Hv) as (u & Hu & Hr).
    rewrite Hu. exact Hr.
Qed.

(** ** Completion *)

(** X6.  [complete_task] commits all of its writes or none.  When it raises,
    the database is what it was, and a job that does not exist raises
    [EntityNotFoundError].  When it returns, the job and its owner existed,
    the owner could pay (the absolute value of) the price, no DEDUCT row
    referred to the job before, and exactly three things were committed: the
    debit, one DEDUCT row carrying the new balance, and the job as READY with
    the token and the price as cost. *)
Theorem complete_task_all_or_nothing (cfg : Settings) (e : Env) (db : Db)
    (tid : UUID) (tok : string) :
  let p := price_per_task cfg in
  let out := session.run (TaskService.complete_task cfg e tid tok) db in
  (∀ x, out.1 = inl x → out.2 = db) ∧
  (tasks db !! tid = None →
   out = (inl (EntityNotFoundError "Task" tid), db)) ∧
  (∀ t', out.1 = inr t' →
     ∃ t u,
       tasks db !! tid = Some t ∧
       users db !! task_user_id t = Some u ∧
       (p ≠ 0 → Z.abs p ≤ balance u) ∧
       has_ref db (task_id t) "TASK" = false ∧
       t' = TaskRepository.apply_values e READY (Some tok) (Some p)
              None None t ∧
       (status t' = READY ∧ token t' = Some tok ∧ cost t' = p) ∧
       tasks out.2 = <[tid := t']> (tasks db) ∧
       users out.2 =
         <[task_user_id t := User.set_balance u (balance u - Z.abs p)]>
           (users db) ∧
       transactions out.2 =
         (transactions db ++
          [Transaction.create_deduct e (task_user_id t) p
             (balance u - Z.abs p) (task_id t)
             (Some ("Task " +:+ String.substring 0 8 (task_id t)
                      +:+ "..."))])%list).
Proof.
  intros p out. subst out. rewrite complete_task_run. fold p.
  destruct (tasks db !! tid) as [t |] eqn:Ht.
  2:{ cbn. repeat split; intros; try reflexivity; discriminate. }
  cbv zeta.
  destruct (users db !! task_user_id t) as [u |] eqn:Hu.
  2:{ cbn. repeat split; intros; try reflexivity; discriminate. }
  destruct (UserRepository.balance_suffices (- Z.abs p) u) eqn:Hs.
  2:{ cbn. repeat split; intros; try reflexivity; discriminate. }
  match goal with
  | |- context [violates_constraints ?d ?r] =>
      destruct (violates_constraints d r) eqn:Hv
  end.
  { cbn. repeat split; intros; try reflexivity; discriminate. }
  cbn [fst snd users tasks transactions].
  split; [intros x [=] |]. split; [intros Hn; discriminate Hn |].
  intros t' [= <-]. exists t, u.
  assert (Hv' := Hv).
  rewrite (violates_after_balance db _
             (Transaction.create_deduct e (task_user_id t) p
                (balance u + - Z.abs p) (task_id t) _)) in Hv'.
  apply orb_false_iff in Hv' as [_ Href]. cbn in Href.
  replace (balance u + - Z.abs p) with (balance u - Z.abs p) by lia.
  repeat split; try reflexivity; try assumption.
  intros Hp. unfold UserRepository.balance_suffices in Hs.
  destruct (Z.ltb_spec (- Z.abs p) 0) as [_ | Hge]; [| lia].
  apply Z.leb_le in Hs. lia.
Qed.

(** X7.  A job that already has its DEDUCT row cannot be billed again:
    whatever its status, [complete_task] raises ([IntegrityError], or
    [InsufficientBalanceError] when the account cannot pay) and commits
    nothing. *)
Theorem complete_task_refuses_billed_job (cfg : Settings) (e : Env)
    (db : Db) (tid : UUID) (t : Task) (tok : string) :
  tasks db !! tid = Some t →
  has_ref db (task_id t) "TASK" = true →
  let out := session.run (TaskService.complete_task cfg e tid tok) db in
  (out.1 = inl IntegrityError ∨
   out.1 = inl (InsufficientBalanceError (price_per_task cfg) 0)) ∧
  out.2 = db.
Proof.
  intros Ht Href out. subst out. rewrite complete_task_run, Ht. cbv zeta.
  destruct (users db !! task_user_id t) as [u |]; [| cbn; auto].
  destruct (UserRepository.balance_suffices _ u); [| cbn; auto].
  rewrite (violates_after_balance db _
             (Transaction.create_deduct e (task_user_id t)
                (price_per_task cfg) _ (task_id t) _)).
  cbn [reference_id reference_type Transaction.create_deduct].
  rewrite Href, orb_true_r. cbn. auto.
Qed.

Lemma complete_task_refuses_billed_job_witness :
  let db := db_one 90 READY (Some "tok") 10 [deduct_row_J] in
  let out :=
    session.run
      (TaskService.complete_task cfg10 (an_env "tx-9" 9) "J" "again") db in
  has_ref db "J" "TASK" = true ∧
  (out.1 = inl IntegrityError ∨
   out.1 = inl (InsufficientBalanceError 10 0)) ∧
  out.2 = db.
Proof.
  cbv zeta. split; [reflexivity |].
  exact (complete_task_refuses_billed_job cfg10 (an_env "tx-9" 9)
           (db_one 90 READY (Some "tok") 10 [deduct_row_J]) "J"
           (a_task "J" "A" READY (Some "tok") 10) "again" eq_refl eq_refl).
Defined.

(** ** Deposit, and debit without a task *)

(** X8.  [deposit] credits the absolute value of the amount and appends a
    DEPOSIT row that carries the new balance.  It raises [ValueError] for an
    account that does not exist, and [IntegrityError] when a row for the
    same payment is already in the ledger; in both cases nothing is
    committed, so a payment notified twice is credited once. *)
Theorem deposit_credits_a_payment_once (e : Env) (uid : UUID) (a : Z)
    (pid : string) (d : option string) (db : Db) :
  let out := session.run (BillingService.deposit e uid a pid d) db in
  (users db !! uid = None →
   out = (inl (ValueError ("User not found: " +:+ uid)), db)) ∧
  (is_Some (users db !! uid) → has_ref db pid "PAYMENT" = true →
   out = (inl IntegrityError, db)) ∧
  (∀ x, out.1 = inl x → out.2 = db) ∧
  (∀ nb, out.1 = inr nb →
     ∃ u row,
       users db !! uid = Some u ∧ nb = balance u + Z.abs a ∧
       has_ref db pid "PAYMENT" = false ∧
       users out.2 = <[uid := User.set_balance u nb]> (users db) ∧
       transactions out.2 = (transactions db ++ [row])%list ∧
       tasks out.2 = tasks db ∧
       tx_type row = DEPOSIT ∧ tx_user_id row = uid ∧
       amount row = Z.abs a ∧ balance_after row = nb ∧
       ref_key row = (pid, "PAYMENT")).
Proof.
  intros out. subst out. rewrite deposit_run.
  destruct (users db !! uid) as [u |] eqn:Hu.
  2:{ cbn. repeat split; intros; try reflexivity;
        try discriminate; try (destruct H as [? H]; discriminate H). }
  cbv zeta.
  match goal with
  | |- context [violates_constraints ?w ?r] =>
      rewrite (violates_after_balance db _ r)
  end.
  cbn [reference_id reference_type tx_id Transaction.create_deposit].
  destruct (existsb _ (transactions db)) eqn:Hid;
    destruct (has_ref db pid "PAYMENT") eqn:Href; cbn [orb fst snd].
  1-3: repeat split; intros; try reflexivity; discriminate.
  split; [intros Hn; discriminate Hn |]. split; [intros _ Hn; discriminate Hn |].
  split; [intros x Hx; discriminate Hx |].
  intros nb [= <-]. eexists u, _. repeat split.
Qed.

(** X9.  [deduct_balance] leaves the commit to its caller unless asked: with
    [auto_commit=False] it returns what it would return with
    [auto_commit=True] but nothing of it is committed when the session ends.
    With [auto_commit=True] a refused debit commits nothing, and an accepted
    one commits the debit and a DEDUCT row that carries the new balance. *)
Theorem deduct_balance_commits_on_request (e : Env) (uid : UUID) (a : Z)
    (tid : string) (d : option string) (db : Db) :
  let quiet := session.run (BillingService.deduct_balance e uid a tid d false) db in
  let loud := session.run (BillingService.deduct_balance e uid a tid d true) db in
  quiet.2 = db ∧ quiet.1 = loud.1 ∧
  (∀ x, loud.1 = inl x →
        loud.2 = db ∧
        (x = IntegrityError ∨ x = InsufficientBalanceError a 0)) ∧
  (∀ nb, loud.1 = inr nb →
     ∃ u row,
       users db !! uid = Some u ∧ nb = balance u - Z.abs a ∧
       (a ≠ 0 → 0 ≤ nb) ∧
       users loud.2 = <[uid := User.set_balance u nb]> (users db) ∧
       transactions loud.2 = (transactions db ++ [row])%list ∧
       tx_type row = DEDUCT ∧ tx_user_id row = uid ∧
       amount row = - Z.abs a ∧ balance_after row = nb ∧
       ref_key row = (tid, "TASK")).
Proof.
  intros quiet loud. subst quiet loud. rewrite !deduct_balance_run.
  destruct (users db !! uid) as [u |] eqn:Hu.
  2:{ cbn. repeat split; intros; try reflexivity; try discriminate.
      right. congruence. }
  destruct (UserRepository.balance_suffices (- Z.abs a) u) eqn:Hs.
  2:{ cbn. repeat split; intros; try reflexivity; try discriminate.
      right. congruence. }
  cbv zeta.
  destruct (violates_constraints _ _) eqn:Hv.
  { cbn. repeat split; intros; try reflexivity; try discriminate.
    left. congruence. }
  cbn [fst snd]. split; [reflexivity |]. split; [reflexivity |].
  split; [intros x Hx; discriminate Hx |].
  intros nb [= <-]. eexists u, _.
  replace (balance u + - Z.abs a) with (balance u - Z.abs a) by lia.
  repeat split.
  intros Ha. unfold UserRepository.balance_suffices in Hs.
  destruct (Z.ltb_spec (- Z.abs a) 0) as [_ | Hge]; [| lia].
  apply Z.leb_le in Hs. lia.
Qed.

(** ** Admission, status writes and ownership *)

(** X10.  [create_task] never bills: whatever it returns or raises, the
    accounts and the ledger are what they were.  It raises
    [EntityNotFoundError] for an unknown account and
    [InsufficientBalanceError], with the price and the balance, for an
    account that holds less than the price; otherwise, with an unused id, it
    commits one new PENDING task of the caller with cost 0 and no token, and
    every other task is untouched. *)
Theorem create_task_checks_but_never_bills (cfg : Settings) (e : Env)
    (uid : UUID) (ty : TaskType) (k : string) (url dom : option string)
    (ent : bool) (db : Db) :
  let out :=
    session.run (TaskService.create_task cfg e uid ty k url dom ent) db in
  (users out.2 = users db ∧ transactions out.2 = transactions db) ∧
  (users db !! uid = None →
   out = (inl (EntityNotFoundError "User" uid), db)) ∧
  (∀ u, users db !! uid = Some u → balance u < price_per_task cfg →
        out = (inl (InsufficientBalanceError (price_per_task cfg)
                      (balance u)), db)) ∧
  (∀ u, users db !! uid = Some u → price_per_task cfg ≤ balance u →
        tasks db !! uuid4 e = None →
        ∃ t, out.1 = inr t ∧
             tasks out.2 = <[uuid4 e := t]> (tasks db) ∧
             task_id t = uuid4 e ∧ task_user_id t = uid ∧
             status t = PENDING ∧ cost t = 0 ∧ token t = None ∧
             task_type t = ty ∧ website_key t = k).
Proof.
  intros out. subst out. rewrite create_task_run.
  destruct (users db !! uid) as [u |] eqn:Hu.
  2:{ cbn. repeat split; intros; try reflexivity; discriminate. }
  destruct (Z.leb_spec (price_per_task cfg) (balance u)) as [Hle | Hlt].
  - cbv zeta.
    destruct (tasks db !! uuid4 e) as [t0 |] eqn:Ht.
    + rewrite bool_decide_eq_true_2 by eauto. cbn.
      repeat split; intros; try reflexivity; try discriminate.
      match goal with H : Some u = Some _ |- _ => injection H as <- end. lia.
    + rewrite bool_decide_eq_false_2 by (intros [? ?]; discriminate).
      cbn. repeat split; intros; try reflexivity; try discriminate.
      * match goal with H : Some u = Some _ |- _ => injection H as <- end. lia.
      * eexists. repeat split.
  - cbn. repeat split; intros; try reflexivity; try discriminate.
    + match goal with H : Some u = Some _ |- _ => injection H as <- end.
      reflexivity.
    + match goal with H : Some u = Some _ |- _ => injection H as <- end. lia.
Qed.

(** X11.  The two status writes of the worker are unconditional and never
    bill.  For a task that exists, whatever its status: [fail_task] returns
    it as FAILED with the error code and the completion time set, and
    [start_processing] returns True and leaves it PROCESSING with the start
    time set; token and cost stay as they were, an error description that is
    [None] leaves the stored one, and accounts and ledger are untouched.
    For a task that does not exist [fail_task] raises
    [EntityNotFoundError], [start_processing] returns False, and nothing
    changes. *)
Theorem status_writes_are_unconditional (e : Env) (tid : UUID)
    (code : string) (desc : option string) (db : Db) :
  let failed := session.run (TaskService.fail_task e tid code desc) db in
  let started := session.run (TaskService.start_processing e tid) db in
  (users failed.2 = users db ∧ transactions failed.2 = transactions db ∧
   users started.2 = users db ∧ transactions started.2 = transactions db) ∧
  (tasks db !! tid = None →
   failed = (inl (EntityNotFoundError "Task" tid), db) ∧
   started = (inr false, db)) ∧
  (∀ t, tasks db !! tid = Some t →
     (∃ t', failed.1 = inr t' ∧ tasks failed.2 = <[tid := t']> (tasks db) ∧
            status t' = FAILED ∧ error_code t' = Some code ∧
            error_desc t' = from_option Some (error_desc t) desc ∧
            completed_at t' = Some (utcnow e) ∧
            token t' = token t ∧ cost t' = cost t ∧
            started_at t' = started_at t) ∧
     (∃ t', started.1 = inr true ∧
            tasks started.2 = <[tid := t']> (tasks db) ∧
            status t' = PROCESSING ∧ started_at t' = Some (utcnow e) ∧
            token t' = token t ∧ cost t' = cost t ∧
            completed_at t' = completed_at t ∧
            error_code t' = error_code t)).
Proof.
  intros failed started. subst failed started.
  rewrite fail_task_run, start_processing_run.
  destruct (tasks db !! tid) as [t |] eqn:Ht.
  - cbv zeta. cbn [fst snd]. split; [repeat split |].
    split; [intros Hn; discriminate Hn |].
    intros t0 [= <-]. split; eexists; repeat split;
      destruct desc; reflexivity.
  - cbn. repeat split; intros; try reflexivity; discriminate.
Qed.

(** X12.  A task is only visible to its owner.  [get_task] and
    [refund_task] raise the same [EntityNotFoundError] for a task of another
    account as for a task that does not exist, and for the owner [get_task]
    returns the stored task.  The refund route, whatever [uuid.UUID] makes of
    the text it is sent: a text that is no UUID is answered errorId 99; a
    text that reads as the id of no task, or of a task of another account,
    is answered errorId 12 in both cases; every text that reads as the same
    id gets the same answer; and in none of these cases is anything
    committed. *)
Theorem tasks_are_visible_to_their_owner_only
    (UUID_of : string → option UUID) (e : Env) (tid uid : UUID)
    (taskId : string) (db : Db) :
  (tasks db !! tid = None ∨
   (∃ t, tasks db !! tid = Some t ∧ task_user_id t ≠ uid) →
   session.run (TaskService.get_task tid uid) db = (inl (EntityNotFoundError "Task" tid), db) ∧
   session.run (TaskService.refund_task e tid uid) db = (inl (EntityNotFoundError "Task" tid), db) ∧
   (UUID_of taskId = Some tid →
    session.run (report_incorrect_request UUID_of e taskId uid) db =
      (inr {| errorId := 12;
              errorCode := Some "ERROR_NO_SUCH_CAPTCHA_ID";
              response_status := None |}, db))) ∧
  (∀ t, tasks db !! tid = Some t → task_user_id t = uid →
        session.run (TaskService.get_task tid uid) db = (inr t, db)) ∧
  (UUID_of taskId = None →
   session.run (report_incorrect_request UUID_of e taskId uid) db =
     (inr {| errorId := 99; errorCode := Some "ERROR_INTERNAL";
             response_status := None |}, db)) ∧
  (∀ taskId', UUID_of taskId' = UUID_of taskId →
   report_incorrect_request UUID_of e taskId' uid
   = report_incorrect_request UUID_of e taskId uid).
Proof.
  assert (Hget : session.run (TaskService.get_task tid uid) db =
    (match tasks db !! tid with
     | Some t => if bool_decide (task_user_id t = uid)
                 then inr t
                 else inl (EntityNotFoundError "Task" tid)
     | None => inl (EntityNotFoundError "Task" tid)
     end, db)).
  { unfold session.run, TaskService.get_task, mbind, M_bind,
      TaskRepository.get_by_id_and_user. db_simpl.
    destruct (tasks db !! tid) as [t |]; [| reflexivity].
    destruct (bool_decide (task_user_id t = uid)); reflexivity. }
  split; [| split; [| split]].
  - intros Hno.
    assert (Hrt : session.run (TaskService.refund_task e tid uid) db
                  = (inl (EntityNotFoundError "Task" tid), db)).
    { rewrite refund_task_run.
      destruct Hno as [-> | (t & -> & Hne)]; [reflexivity |].
      rewrite bool_decide_eq_false_2 by exact Hne. reflexivity. }
    split; [| split; [exact Hrt |]].
    + rewrite Hget. destruct Hno as [-> | (t & -> & Hne)]; [reflexivity |].
      rewrite bool_decide_eq_false_2 by exact Hne. reflexivity.
    + intros Hid. unfold report_incorrect_request. rewrite Hid.
      unfold session.run in *. unfold report_incorrect, try_except,
        mbind, M_bind.
      destruct (TaskService.refund_task e tid uid _) as [r s].
      injection Hrt as -> <-. reflexivity.
  - intros t Ht Hu. rewrite Hget, Ht.
    rewrite bool_decide_eq_true_2 by exact Hu. reflexivity.
  - intros Hid. unfold report_incorrect_request. rewrite Hid. reflexivity.
  - intros taskId' Hid. unfold report_incorrect_request. rewrite Hid.
    reflexivity.
Qed.

(** ** The ledger and the balances across calls *)

(** One call either leaves accounts and ledger alone, or adjusts one balance
    by the amount of the one row it appends for that account. *)
Lemma exec_effect (cfg : Settings) (c : Call) (db : Db) :
  (users (exec cfg c db) = users db ∧
   transactions (exec cfg c db) = transactions db) ∨
  (∃ uid u row,
     users db !! uid = Some u ∧ tx_user_id row = uid ∧
     users (exec cfg c db) =
       <[uid := User.set_balance u (balance u + amount row)]> (users db) ∧
     transactions (exec cfg c db) = (transactions db ++ [row])%list).
Proof.
  destruct c as [e u ty k url dom ent | e t | e t tok | e t code desc
                | e t u | e u a t d ac | e u a t d | e u a p d]; cbn [exec].
  - rewrite create_task_run.
    destruct (users db !! u) as [x |]; [| left; auto].
    destruct (_ <=? _); [| left; auto]. cbv zeta.
    destruct (bool_decide _); left; auto.
  - rewrite start_processing_run.
    destruct (tasks db !! t); left; auto.
  - rewrite complete_task_run.
    destruct (tasks db !! t) as [x |]; [| left; auto]. cbv zeta.
    destruct (users db !! task_user_id x) as [y |] eqn:Hy; [| left; auto].
    destruct (UserRepository.balance_suffices _ y); [| left; auto].
    destruct (violates_constraints _ _); [left; auto |].
    right. eexists (task_user_id x), y, _. cbn [fst snd users transactions].
    split; [exact Hy | split; [| split]]; [| | reflexivity]; reflexivity.
  - rewrite fail_task_run.
    destruct (tasks db !! t); left; auto.
  - rewrite refund_task_run.
    destruct (tasks db !! t) as [x |]; [| left; auto].
    destruct (bool_decide (task_user_id x = u)); [| left; auto].
    destruct (_ && _); [| left; auto]. cbv zeta. cbn [snd].
    rewrite refund_run.
    destruct (violates_constraints _ _); [left; auto |].
    destruct (users db !! u) as [y |] eqn:Hy; [| left; auto].
    right. eexists u, y, _. cbn [fst snd users transactions].
    split; [exact Hy | split; [| split]]; [| | reflexivity]; reflexivity.
  - rewrite deduct_balance_run.
    destruct (users db !! u) as [y |] eqn:Hy; [| left; auto].
    destruct (UserRepository.balance_suffices _ y); [| left; auto].
    cbv zeta. destruct (violates_constraints _ _); [left; auto |].
    destruct ac; [| left; auto].
    right. eexists u, y, _. cbn [fst snd users transactions].
    split; [exact Hy | split; [| split]]; [| | reflexivity]; reflexivity.
  - rewrite refund_run.
    destruct (violates_constraints _ _); [left; auto |].
    destruct (users db !! u) as [y |] eqn:Hy; [| left; auto].
    right. eexists u, y, _. cbn [fst snd users transactions].
    split; [exact Hy | split; [| split]]; [| | reflexivity]; reflexivity.
  - rewrite deposit_run.
    destruct (users db !! u) as [y |] eqn:Hy; [| left; auto].
    cbv zeta. destruct (violates_constraints _ _); [left; auto |].
    right. eexists u, y, _. cbn [fst snd users transactions].
    split; [exact Hy | split; [| split]]; [| | reflexivity]; reflexivity.
Qed.

(** X13.  The ledger is append-only and the set of accounts is fixed: after
    any sequence of service calls the rows that were there are still there,
    unchanged and in the same order, at most one row was added per call, and
    no account was created or removed. *)
Theorem ledger_is_append_only (cfg : Settings) (cs : list Call) (db : Db) :
  let db' := run_calls cfg cs db in
  transactions db `prefix_of` transactions db' ∧
  (length (transactions db') ≤ length (transactions db) + length cs)%nat ∧
  dom (users db') = dom (users db).
Proof.
  cbv zeta. unfold run_calls. revert db.
  induction cs as [| c cs IH]; intros db.
  - cbn. split; [reflexivity |]. split; [lia | reflexivity].
  - cbn [foldl length]. destruct (IH (exec cfg c db)) as (Hp & Hl & Hd).
    destruct (exec_effect cfg c db)
      as [[Hu Ht] | (uid & u & row & Hu & _ & Hus & Ht)].
    + rewrite Ht in Hp, Hl. rewrite Hu in Hd.
      split; [exact Hp |]. split; [lia | exact Hd].
    + rewrite Ht in Hp, Hl. rewrite Hus in Hd.
      rewrite length_app in Hl. cbn in Hl.
      split; [| split; [lia |]].
      * etransitivity; [| exact Hp]. apply prefix_app_r. reflexivity.
      * rewrite Hd, dom_insert_L.
        apply subseteq_union_1_L, singleton_subseteq_l, elem_of_dom. eauto.
Qed.

Lemma ledger_total_app (db : Db) (us : gmap string User)
    (ts : gmap string Task) (row : Transaction) (uid : UUID) :
  ledger_total
    {| users := us; tasks := ts;
       transactions := (transactions db ++ [row])%list |} uid
  = ledger_total db uid +
    (if bool_decide (tx_user_id row = uid) then amount row else 0).
Proof.
  unfold ledger_total. db_simpl.
  induction (transactions db) as [| x l IH]; cbn.
  - destruct (bool_decide _); lia.
  - rewrite IH. destruct (bool_decide (tx_user_id x = uid)); lia.
Qed.

Lemma unbooked_exec (cfg : Settings) (c : Call) (db : Db) (uid : UUID) :
  unbooked (exec cfg c db) uid = unbooked db uid.
Proof.
  destruct (exec_effect cfg c db)
    as [[Hu Ht] | (uid' & u & row & Hu & Hr & Hus & Ht)].
  - unfold unbooked, balance_of, ledger_total. rewrite Hu, Ht. reflexivity.
  - unfold unbooked, balance_of. rewrite Hus.
    destruct (exec cfg c db) as [us ts txs]. cbn [transactions users] in *.
    subst txs. rewrite (ledger_total_app db us ts row uid). rewrite Hr.
    destruct (decide (uid' = uid)) as [-> | Hne].
    + rewrite lookup_insert_eq, Hu, bool_decide_eq_true_2 by reflexivity.
      cbn. lia.
    + rewrite lookup_insert_ne by exact Hne.
      rewrite bool_decide_eq_false_2 by exact Hne. lia.
Qed.

(** X14.  Balances move only with the ledger: over any sequence of service
    calls, the balance of every account changes by exactly the sum of the
    amounts of the rows appended for it. *)
Theorem balance_follows_the_ledger (cfg : Settings) (cs : list Call)
    (db : Db) (uid : UUID) :
  let db' := run_calls cfg cs db in
  default 0 (balance_of db' uid) - default 0 (balance_of db uid)
  = ledger_total db' uid - ledger_total db uid.
Proof.
  cbv zeta.
  assert (H : unbooked (run_calls cfg cs db) uid = unbooked db uid).
  { unfold run_calls. revert db.
    induction cs as [| c cs IH]; intros db; [reflexivity |].
    cbn [foldl]. rewrite IH. apply unbooked_exec. }
  unfold unbooked in H. lia.
Qed.

(** ** More on the rate gate *)

Lemma length_survivors (z : list RateLimiter.Entry) (bound : Q) :
  (length (RateLimiter.ZREMRANGEBYSCORE z bound) ≤ length z)%nat.
Proof. unfold RateLimiter.ZREMRANGEBYSCORE. apply filter_length_le. Qed.

Lemma length_ZADD (z : list RateLimiter.Entry) (sc : Q) (m : string) :
  (length (RateLimiter.ZADD z sc m) ≤ S (length z))%nat.
Proof.
  unfold RateLimiter.ZADD. cbn [length].
  apply le_n_S, filter_length_le.
Qed.

(** X15.  A check never leaves more entries under the key than the larger
    of what it found and [max_requests]; so a key that holds at most
    [max_requests] entries keeps doing so.  Every entry left other than the
    one just recorded was there before and is inside the window; and on
    admission the remaining count returned is not negative and does not
    exceed the room left under the key. *)
Theorem rate_gate_keeps_within_budget (prefix : string)
    (store : gmap string (list RateLimiter.Entry)) (now : Q) (m key : string)
    (max_requests window_seconds : Z) :
  let rk := prefix +:+ ":" +:+ key in
  let z := RateLimiter.zset_of store rk in
  let out :=
    RateLimiter.is_allowed prefix store now m key
      max_requests window_seconds in
  let z' := RateLimiter.zset_of out.1 rk in
  RateLimiter.ZCARD z' ≤ Z.max (RateLimiter.ZCARD z) max_requests ∧
  (∀ x, In x z' →
        x = {| RateLimiter.member := m; RateLimiter.score := now |} ∨
        (In x z ∧ (now - inject_Z window_seconds < RateLimiter.score x)%Q)) ∧
  (out.2.1.1 = true →
   0 ≤ out.2.1.2 ∧ out.2.1.2 ≤ max_requests - RateLimiter.ZCARD z' ∧
   out.2.2 = 0) ∧
  (out.2.1.1 = false → out.2.1.2 = 0 ∧ max_requests ≤ RateLimiter.ZCARD z').
Proof.
  intros rk z out z'.
  set (survivors :=
         RateLimiter.ZREMRANGEBYSCORE z (now - inject_Z window_seconds)%Q).
  assert (Hs : RateLimiter.ZCARD survivors ≤ RateLimiter.ZCARD z).
  { unfold RateLimiter.ZCARD. apply inj_le, length_survivors. }
  assert (Hout : out =
    let r := RateLimiter.lua_script z now (now - inject_Z window_seconds)%Q
               max_requests window_seconds m in
    (<[rk := r.1]> store, (negb (r.2.1.1 =? 0), r.2.1.2, r.2.2)))
    by apply is_allowed_unfold.
  cbv zeta in Hout.
  destruct (lua_script_spec z now max_requests window_seconds m) as [Ha Hr].
  cbv zeta in Ha, Hr. fold survivors in Ha, Hr.
  destruct (Z_lt_le_dec (RateLimiter.ZCARD survivors) max_requests)
    as [Hlt | Hge].
  - rewrite (Ha Hlt) in Hout. cbn [fst snd] in Hout.
    change (negb (1 =? 0)) with true in Hout.
    assert (Hz' : z' = RateLimiter.ZADD survivors now m).
    { unfold z'. rewrite Hout. cbn [fst].
      rewrite zset_of_insert, decide_True by reflexivity. reflexivity. }
    assert (Hl : RateLimiter.ZCARD z' ≤ RateLimiter.ZCARD survivors + 1).
    { rewrite Hz'. unfold RateLimiter.ZCARD.
      pose proof (length_ZADD survivors now m). lia. }
    split; [lia |]. split; [| split].
    + rewrite Hz'. intros x [<- | Hx]; [left; reflexivity | right].
      unfold RateLimiter.ZADD in Hx. apply filter_In in Hx as [Hx _].
      apply survives_iff in Hx. exact Hx.
    + intros _. rewrite Hout. cbn [fst snd]. repeat split; lia.
    + rewrite Hout. cbn [fst snd]. intros Hf. discriminate Hf.
  - destruct (Hr Hge) as (ra & Hl & _). rewrite Hl in Hout.
    cbn [fst snd] in Hout. change (negb (0 =? 0)) with false in Hout.
    assert (Hz' : z' = survivors).
    { unfold z'. rewrite Hout. cbn [fst].
      rewrite zset_of_insert, decide_True by reflexivity. reflexivity. }
    split; [rewrite Hz'; lia |]. split; [| split].
    + rewrite Hz'. intros x Hx. right. apply survives_iff in Hx. exact Hx.
    + rewrite Hout. cbn [fst snd]. intros Hf. discriminate Hf.
    + intros _. rewrite Hout. cbn [fst snd]. rewrite Hz'. split; [reflexivity | lia].
Qed.

(** X16.  [reset] gives the caller the whole budget back and touches no
    other key: the key holds no entry afterwards, and the next check, at any
    time and with any positive [max_requests], is admitted with
    [max_requests - 1] remaining. *)
Theorem reset_restores_the_budget (prefix : string)
    (store : gmap string (list RateLimiter.Entry)) (now : Q) (m key : string)
    (max_requests window_seconds : Z) :
  let rk := prefix +:+ ":" +:+ key in
  let store' := RateLimiter.reset prefix store key in
  RateLimiter.zset_of store' rk = [] ∧
  (∀ k, k ≠ rk →
        RateLimiter.zset_of store' k = RateLimiter.zset_of store k) ∧
  (0 < max_requests →
   (RateLimiter.is_allowed prefix store' now m key
      max_requests window_seconds).2 = (true, max_requests - 1, 0)).
Proof.
  intros rk store'.
  assert (H0 : RateLimiter.zset_of store' rk = []).
  { unfold store', RateLimiter.reset, RateLimiter.zset_of. fold rk.
    rewrite lookup_delete_eq. reflexivity. }
  split; [exact H0 |]. split.
  - intros k Hk. unfold store', RateLimiter.reset, RateLimiter.zset_of.
    fold rk. rewrite lookup_delete_ne by congruence. reflexivity.
  - intros Hpos.
    rewrite (is_allowed_admits prefix store' now m key max_requests
               window_seconds [] H0);
      [ cbn [snd]; unfold RateLimiter.ZCARD; cbn [length]; f_equal; f_equal; lia
      | intros x [] | intros x [] | unfold RateLimiter.ZCARD; cbn; lia ].
Qed.

Lemma NoDup_members_filter (z : list RateLimiter.Entry)
    (P : RateLimiter.Entry → bool) :
  NoDup (RateLimiter.member <$> z) →
  NoDup (RateLimiter.member <$> List.filter P z).
Proof.
  induction z as [| x z IH]; [intros H; exact H |].
  rewrite fmap_cons, NoDup_cons. intros [Hx Hz]. cbn [List.filter].
  destruct (P x); [| exact (IH Hz)].
  rewrite fmap_cons, NoDup_cons. split; [| exact (IH Hz)].
  intros Hin. apply Hx. apply list_elem_of_fmap in Hin as (y & Hy & Hin).
  apply list_elem_of_In, filter_In in Hin as [Hin _].
  apply list_elem_of_In in Hin. rewrite Hy.
  apply list_elem_of_fmap_2. exact Hin.
Qed.

(** X17.  Member names stay unique under a key, as in a sorted set: a check
    on a set with unique members leaves one with unique members.  So a
    request whose member name is already there does not add an entry: it is
    admitted, and the entry of that name is the new one, with score [now]. *)
Theorem rate_gate_members_stay_unique (z : list RateLimiter.Entry) (now : Q)
    (max_requests window_seconds : Z) (m : string) :
  let out :=
    RateLimiter.lua_script z now (now - inject_Z window_seconds)%Q
      max_requests window_seconds m in
  NoDup (RateLimiter.member <$> z) →
  NoDup (RateLimiter.member <$> out.1) ∧
  (out.2.1.1 = 1 →
   ∀ x, In x out.1 → RateLimiter.member x = m →
        x = {| RateLimiter.member := m; RateLimiter.score := now |}).
Proof.
  intros out Hnd. subst out. unfold RateLimiter.lua_script.
  set (survivors :=
         RateLimiter.ZREMRANGEBYSCORE z (now - inject_Z window_seconds)%Q).
  assert (Hs : NoDup (RateLimiter.member <$> survivors))
    by apply NoDup_members_filter, Hnd.
  destruct (RateLimiter.ZCARD survivors <? max_requests); cbn [fst snd].
  - split.
    + unfold RateLimiter.ZADD. rewrite fmap_cons, NoDup_cons. split.
      * intros Hin. apply list_elem_of_fmap in Hin as (y & Hy & Hin).
        apply list_elem_of_In, filter_In in Hin as [_ Hin].
        apply negb_true_iff, bool_decide_eq_false in Hin.
        cbn in Hy. congruence.
      * apply NoDup_members_filter, Hs.
    + intros _ x [<- | Hx] Hm; [reflexivity |].
      unfold RateLimiter.ZADD in Hx. apply filter_In in Hx as [_ Hx].
      apply negb_true_iff, bool_decide_eq_false in Hx. contradiction.
  - split; [exact Hs | intros Hf; discriminate Hf].
Qed.

Lemma rate_gate_members_stay_unique_witness :
  let z := [{| RateLimiter.member := "a"; RateLimiter.score := 5%Q |};
            {| RateLimiter.member := "b"; RateLimiter.score := 7%Q |}] in
  let out := RateLimiter.lua_script z 9%Q (9 - inject_Z 60)%Q 3 60 "a" in
  NoDup (RateLimiter.member <$> z) ∧
  NoDup (RateLimiter.member <$> out.1) ∧
  RateLimiter.ZCARD out.1 = 2.
Proof.
  cbv zeta.
  assert (H : NoDup (RateLimiter.member <$>
    [{| RateLimiter.member := "a"; RateLimiter.score := 5%Q |};
     {| RateLimiter.member := "b"; RateLimiter.score := 7%Q |}])).
  { cbn. apply NoDup_cons. split.
    - intros Hin. apply list_elem_of_singleton in Hin. discriminate Hin.
    - apply NoDup_singleton. }
  split; [exact H |]. split; [| reflexivity].
  exact (proj1 (rate_gate_members_stay_unique _ 9%Q 3 60 "a" H)).
Defined.

(** ** Completion followed by refund *)

Lemma set_balance_same (u : User) : User.set_balance u (balance u) = u.
Proof. destruct u. reflexivity. Qed.

Lemma has_ref_app (db : Db) (us : gmap string User) (ts : gmap string Task)
    (row : Transaction) (rid rtype : string) :
  has_ref {| users := us; tasks := ts;
             transactions := (transactions db ++ [row])%list |} rid rtype
  = has_ref db rid rtype || bool_decide (ref_key row = (rid, rtype)).
Proof.
  unfold has_ref. db_simpl. rewrite existsb_app. cbn [existsb].
  rewrite orb_false_r. reflexivity.
Qed.

(** X19.  Billing a job and refunding it puts every account back where it
    was.  For a job whose owner can pay a positive price, with no DEDUCT or
    REFUND row for it yet and fresh row ids: after [complete_task] and then
    [refund_task] the accounts table is the one before, the ledger has
    gained exactly the DEDUCT row of minus the price and the REFUND row of
    plus the price, in that order, and the job is READY with the price as
    its cost. *)
Theorem complete_then_refund_restores_balances (cfg : Settings)
    (e1 e2 : Env) (db : Db) (tid : UUID) (t : Task) (u : User)
    (tok : string) :
  tasks db !! tid = Some t →
  task_id t = tid →
  users db !! task_user_id t = Some u →
  0 < price_per_task cfg → price_per_task cfg ≤ balance u →
  has_ref db tid "TASK" = false →
  has_ref db tid "TASK_REFUND" = false →
  Forall (λ x, tx_id x ≠ uuid4 e1 ∧ tx_id x ≠ uuid4 e2) (transactions db) →
  uuid4 e1 ≠ uuid4 e2 →
  let p := price_per_task cfg in
  let uid := task_user_id t in
  let db' :=
    run_calls cfg [CompleteTask e1 tid tok; RefundTask e2 tid uid] db in
  users db' = users db ∧
  transactions db' =
    (transactions db ++
     [Transaction.create_deduct e1 uid p (balance u - p) tid
        (Some ("Task " +:+ String.substring 0 8 tid +:+ "..."));
      Transaction.create_refund e2 uid p 0 tid
        (Some ("Refund for task " +:+ String.substring 0 8 tid
                 +:+ "..."))])%list ∧
  (∃ t', tasks db' !! tid = Some t' ∧ status t' = READY ∧ cost t' = p ∧
         token t' = Some tok).
Proof.
  intros Ht Hid Hu Hp Hb Hd Hr Hfresh Hne p UID db'. subst UID.
  assert (Habs : Z.abs p = p) by (apply Z.abs_eq; unfold p; lia).
  assert (Hf1 : Forall (λ x, tx_id x ≠ uuid4 e1) (transactions db))
    by (eapply Forall_impl; [exact Hfresh | intros x [H _]; exact H]).
  assert (Hf2 : Forall (λ x, tx_id x ≠ uuid4 e2) (transactions db))
    by (eapply Forall_impl; [exact Hfresh | intros x [_ H]; exact H]).
  set (t1 := TaskRepository.apply_values e1 READY (Some tok) (Some p)
               None None t).
  set (row1 := Transaction.create_deduct e1 (task_user_id t) p (balance u - p) tid
                 (Some ("Task " +:+ String.substring 0 8 tid +:+ "..."))).
  set (db1 := {| users := <[(task_user_id t) := User.set_balance u (balance u - p)]>
                            (users db);
                 tasks := <[tid := t1]> (tasks db);
                 transactions := (transactions db ++ [row1])%list |}).
  assert (H1 : exec cfg (CompleteTask e1 tid tok) db = db1).
  { cbn [exec]. rewrite complete_task_run, Ht. cbv zeta. fold p.
    rewrite Hu, Hid, Habs.
    assert (Hs : UserRepository.balance_suffices (- p) u = true).
    { rewrite balance_suffices_debit by lia. apply bool_decide_eq_true. lia. }
    rewrite Hs.
    replace (balance u + - p) with (balance u - p) by lia. fold row1.
    rewrite (violates_after_balance db _ row1).
    cbn [tx_id reference_id reference_type row1 Transaction.create_deduct].
    rewrite (existsb_tx_id_fresh _ _ Hf1), Hd. reflexivity. }
  set (row2 := Transaction.create_refund e2 (task_user_id t) p 0 tid
                 (Some ("Refund for task " +:+ String.substring 0 8 tid
                          +:+ "..."))).
  assert (Hv2 : violates_constraints db1 row2 = false).
  { apply violates_constraints_spec. split; [| split].
    - unfold db1. db_simpl. rewrite existsb_app.
      cbn [tx_id row2 Transaction.create_refund] in *.
      rewrite (existsb_tx_id_fresh _ _ Hf2). cbn.
      rewrite bool_decide_eq_false_2 by exact Hne. reflexivity.
    - cbn [reference_id reference_type row2 Transaction.create_refund].
      unfold db1. rewrite has_ref_app, Hr.
      rewrite bool_decide_eq_false_2 by (cbn; intros [=]). reflexivity.
    - unfold db1. db_simpl. cbn [tx_user_id row2 Transaction.create_refund].
      rewrite lookup_insert_eq. eauto. }
  assert (H2 : exec cfg (RefundTask e2 tid (task_user_id t)) db1 =
    {| users := <[(task_user_id t) := User.set_balance (User.set_balance u (balance u - p))
                           (balance u - p + p)]> (users db1);
       tasks := tasks db1;
       transactions := (transactions db1 ++ [row2])%list |}).
  { cbn [exec]. rewrite refund_task_run.
    unfold db1 at 1. db_simpl. rewrite lookup_insert_eq.
    assert (Ho : task_user_id t1 = (task_user_id t)) by (unfold t1; destruct t; reflexivity).
    assert (Hst : status t1 = READY) by reflexivity.
    assert (Hc : cost t1 = p) by reflexivity.
    rewrite bool_decide_eq_true_2 by exact Ho.
    rewrite bool_decide_eq_true_2 by exact Hst. rewrite Hc.
    destruct (Z.leb_spec p 0) as [Hle | _]; [unfold p in Hle; lia |].
    cbn [andb negb]. cbv zeta. cbn [snd].
    rewrite refund_run. unfold or_default. fold row2. rewrite Hv2.
    unfold db1 at 1. db_simpl. rewrite lookup_insert_eq, Habs.
    reflexivity. }
  assert (Hrun : db' = exec cfg (RefundTask e2 tid (task_user_id t))
                         (exec cfg (CompleteTask e1 tid tok) db))
    by reflexivity.
  rewrite H1, H2 in Hrun. rewrite Hrun. db_simpl. unfold db1. db_simpl.
  split; [| split].
  - rewrite insert_insert_eq.
    replace (balance u - p + p) with (balance u) by lia.
    assert (Hsame : User.set_balance (User.set_balance u (balance u - p))
                      (balance u) = u) by (destruct u; reflexivity).
    rewrite Hsame. apply insert_id. exact Hu.
  - rewrite <- app_assoc. reflexivity.
  - exists t1. rewrite lookup_insert_eq. repeat split.
Qed.

Lemma complete_then_refund_restores_balances_witness :
  let db := db_one 100 PROCESSING None 0 [] in
  let db' :=
    run_calls cfg10
      [CompleteTask (an_env "tx-1" 5) "J" "tok";
       RefundTask (an_env "tx-2" 6) "J" "A"] db in
  (0 < price_per_task cfg10 ∧ price_per_task cfg10 ≤ 100) ∧
  users db' = users db ∧
  (λ x, (tx_type x, amount x)) <$> transactions db'
    = [(DEDUCT, -10); (REFUND, 10)].
Proof.
  cbv zeta. split; [cbn; lia |].
  destruct (complete_then_refund_restores_balances cfg10
              (an_env "tx-1" 5) (an_env "tx-2" 6)
              (db_one 100 PROCESSING None 0 []) "J"
              (a_task "J" "A" PROCESSING None 0) (a_user "A" 100) "tok"
              eq_refl eq_refl eq_refl)
    as (Hus & Htx & _);
    [cbn; lia | cbn; lia | reflexivity | reflexivity | constructor
    | discriminate |].
  split; [exact Hus |].
  exact (f_equal (fmap (λ x, (tx_type x, amount x))) Htx).
Defined.

(** ** Costs and the ledger *)

Lemma billed_same_ledger (db db' : Db) :
  billed_in_ledger db → tasks db' = tasks db →
  transactions db' = transactions db → billed_in_ledger db'.
Proof.
  intros H Ht Hx k t Hk Hc. rewrite Ht in Hk.
  unfold has_ref. rewrite Hx. exact (H k t Hk Hc).
Qed.

Lemma billed_more_ledger (db : Db) (us : gmap string User)
    (row : Transaction) :
  billed_in_ledger db →
  billed_in_ledger {| users := us; tasks := tasks db;
                      transactions := (transactions db ++ [row])%list |}.
Proof.
  intros H k t Hk Hc. rewrite has_ref_app.
  cbn [tasks] in Hk. rewrite (H k t Hk Hc). reflexivity.
Qed.

(** A write that keeps the identity and the cost of the row it replaces. *)
Lemma billed_status_write (db : Db) (k : UUID) (t t' : Task) :
  billed_in_ledger db → tasks db !! k = Some t →
  task_id t' = task_id t → cost t' = cost t →
  billed_in_ledger (set_tasks db (<[k := t']> (tasks db))).
Proof.
  intros H Hk Hid Hc k' x Hx Hne. cbn [tasks set_tasks] in Hx.
  change (has_ref (set_tasks db (<[k:=t']> (tasks db))) (task_id x) "TASK")
    with (has_ref db (task_id x) "TASK").
  destruct (decide (k = k')) as [<- | Hkk].
  - rewrite lookup_insert_eq in Hx. injection Hx as <-.
    rewrite Hid. apply (H k t Hk). rewrite <- Hc. exact Hne.
  - rewrite lookup_insert_ne in Hx by exact Hkk. exact (H k' x Hx Hne).
Qed.

Lemma billed_exec (cfg : Settings) (c : Call) (db : Db) :
  billed_in_ledger db → billed_in_ledger (exec cfg c db).
Proof.
  intros H.
  destruct c as [e u ty k url dom ent | e t | e t tok | e t code desc
                | e t u | e u a t d ac | e u a t d | e u a p d]; cbn [exec].
  - rewrite create_task_run.
    destruct (users db !! u) as [x |]; [| exact H].
    destruct (_ <=? _); [| exact H]. cbv zeta.
    destruct (bool_decide _); [exact H |]. cbn [snd].
    intros k' x' Hx Hne. cbn [tasks set_tasks] in Hx.
    change (has_ref (set_tasks db _) (task_id x') "TASK")
      with (has_ref db (task_id x') "TASK").
    destruct (decide (uuid4 e = k')) as [<- | Hkk].
    + rewrite lookup_insert_eq in Hx. injection Hx as <-.
      exfalso. apply Hne. reflexivity.
    + rewrite lookup_insert_ne in Hx by exact Hkk. exact (H k' x' Hx Hne).
  - rewrite start_processing_run.
    destruct (tasks db !! t) as [x |] eqn:Hx; [| exact H]. cbn [snd].
    apply (billed_status_write db t x _ H Hx); reflexivity.
  - rewrite complete_task_run.
    destruct (tasks db !! t) as [x |] eqn:Hx; [| exact H]. cbv zeta.
    destruct (users db !! task_user_id x) as [y |]; [| exact H].
    destruct (UserRepository.balance_suffices _ y); [| exact H].
    destruct (violates_constraints _ _); [exact H |]. cbn [snd].
    intros k' x' Hx' Hne. cbn [tasks] in Hx'. rewrite has_ref_app.
    destruct (decide (t = k')) as [<- | Hkk].
    + rewrite lookup_insert_eq in Hx'. injection Hx' as <-.
      apply orb_true_iff. right. apply bool_decide_eq_true. reflexivity.
    + rewrite lookup_insert_ne in Hx' by exact Hkk.
      rewrite (H k' x' Hx' Hne). reflexivity.
  - rewrite fail_task_run.
    destruct (tasks db !! t) as [x |] eqn:Hx; [| exact H].
    cbv zeta. cbn [snd].
    apply (billed_status_write db t x _ H Hx); destruct desc; reflexivity.
  - rewrite refund_task_run.
    destruct (tasks db !! t) as [x |]; [| exact H].
    destruct (bool_decide (task_user_id x = u)); [| exact H].
    destruct (_ && _); [| exact H]. cbv zeta. cbn [snd].
    rewrite refund_run.
    destruct (violates_constraints _ _); [exact H |].
    destruct (users db !! u) as [y |]; [| exact H].
    apply billed_more_ledger, H.
  - rewrite deduct_balance_run.
    destruct (users db !! u) as [y |]; [| exact H].
    destruct (UserRepository.balance_suffices _ y); [| exact H].
    cbv zeta. destruct (violates_constraints _ _); [exact H |].
    destruct ac; [| exact H]. apply billed_more_ledger, H.
  - rewrite refund_run.
    destruct (violates_constraints _ _); [exact H |].
    destruct (users db !! u) as [y |]; [| exact H].
    apply billed_more_ledger, H.
  - rewrite deposit_run.
    destruct (users db !! u) as [y |]; [| exact H].
    cbv zeta. destruct (violates_constraints _ _); [exact H |].
    apply billed_more_ledger, H.
Qed.

(** X20.  No task carries a cost without a ledger row: if every task with a
    cost other than 0 has a DEDUCT row that refers to it, then so it is
    after any sequence of service calls, whatever they do to the status of
    the tasks. *)
Theorem costed_tasks_have_deduct_rows (cfg : Settings) (cs : list Call)
    (db : Db) :
  billed_in_ledger db → billed_in_ledger (run_calls cfg cs db).
Proof.
  unfold run_calls. revert db.
  induction cs as [| c cs IH]; intros db H; [exact H |].
  cbn [foldl]. apply IH, billed_exec, H.
Qed.

Lemma costed_tasks_have_deduct_rows_witness :
  let db := db_one 100 PROCESSING None 0 [] in
  let db' :=
    run_calls cfg10
      [CompleteTask (an_env "tx-1" 5) "J" "tok";
       FailTask (an_env "tx-2" 6) "J" "INTERNAL_ERROR" None] db in
  billed_in_ledger db ∧ billed_in_ledger db' ∧
  (λ t, (status t, cost t)) <$> tasks db' !! "J" = Some (FAILED, 10).
Proof.
  cbv zeta.
  assert (H : billed_in_ledger (db_one 100 PROCESSING None 0 [])).
  { intros k t Hk Hc. unfold db_one in Hk. cbn [tasks] in Hk.
    apply lookup_singleton_Some in Hk as [_ <-]. exfalso. apply Hc.
    reflexivity. }
  split; [exact H |]. split; [| reflexivity].
  exact (costed_tasks_have_deduct_rows cfg10
           [CompleteTask (an_env "tx-1" 5) "J" "tok";
            FailTask (an_env "tx-2" 6) "J" "INTERNAL_ERROR" None]
           (db_one 100 PROCESSING None 0 []) H).
Defined.

(** * The further properties at concrete inputs *)

(** PENDING to PROCESSING is allowed by the table. *)
Lemma terminal_iff_no_transition_out_witness :
  TaskStatus.can_transition_to PENDING PROCESSING = true ∧
  PROCESSING ≠ PENDING ∧ PROCESSING ≠ PENDING ∧
  (PENDING = PENDING ∨ TaskStatus.is_terminal PROCESSING = true).
Proof.
  split; [reflexivity |].
  exact (proj2 (terminal_iff_no_transition_out PENDING) PROCESSING eq_refl).
Defined.

(** A name of no member, with and without the suffix. *)
Lemma from_string_accepts_normalized_names_witness :
  TaskType.from_string "FunCaptchaTaskProxyless"
    = inl (ValueError "Unknown task type: FunCaptchaTaskProxyless") ∧
  TaskType.from_string "HCaptchaTaskProxyless" = inr HCAPTCHA.
Proof.
  split.
  - apply (proj1 (proj2 (from_string_accepts_normalized_names
                           "FunCaptchaTaskProxyless" HCAPTCHA))).
    intros m'. destruct m'; discriminate.
  - apply (proj1 (from_string_accepts_normalized_names
                    "HCaptchaTaskProxyless" HCAPTCHA)).
    reflexivity.
Defined.

(** The completion of job J on an account that holds 100. *)
Lemma complete_task_all_or_nothing_witness :
  let db := db_one 100 PROCESSING None 0 [] in
  ∃ t u, tasks db !! "J" = Some t ∧ users db !! task_user_id t = Some u ∧
         has_ref db (task_id t) "TASK" = false ∧
         balance_of
           (session.run
              (TaskService.complete_task cfg10 (an_env "tx-9" 9) "J" "tok")
              db).2 "A" = Some 90.
Proof.
  cbv zeta.
  destruct (proj2 (proj2 (complete_task_all_or_nothing cfg10
                            (an_env "tx-9" 9)
                            (db_one 100 PROCESSING None 0 []) "J" "tok"))
              (TaskRepository.apply_values (an_env "tx-9" 9) READY
                 (Some "tok") (Some 10) None None
                 (a_task "J" "A" PROCESSING None 0))
              eq_refl)
    as (t & u & Ht & Hu & _ & Href & _).
  exists t, u. repeat split; assumption || reflexivity.
Defined.

(** The ledger already has the row of payment pay-1. *)
Lemma deposit_credits_a_payment_once_witness :
  let row :=
    Transaction.create_deposit (an_env "tx-1" 5) "A" 50 100 "pay-1" None in
  let db := db_one 100 PENDING None 0 [row] in
  has_ref db "pay-1" "PAYMENT" = true ∧
  session.run
    (BillingService.deposit (an_env "tx-2" 6) "A" 50 "pay-1" None) db
  = (inl IntegrityError, db).
Proof.
  cbv zeta. split; [reflexivity |].
  apply (proj1 (proj2 (deposit_credits_a_payment_once (an_env "tx-2" 6) "A"
                         50 "pay-1" None
                         (db_one 100 PENDING None 0
                            [Transaction.create_deposit (an_env "tx-1" 5)
                               "A" 50 100 "pay-1" None])))).
  - eexists. reflexivity.
  - reflexivity.
Defined.

(** A debit of 30 on the 100 that A holds. *)
Lemma deduct_balance_commits_on_request_witness :
  let db := db_one 100 PENDING None 0 [] in
  (session.run
     (BillingService.deduct_balance (an_env "tx-2" 6) "A" 30 "J" None false)
     db).2 = db ∧
  ∃ u row, users db !! "A" = Some u ∧ 70 = balance u - Z.abs 30 ∧
           transactions
             (session.run
                (BillingService.deduct_balance (an_env "tx-2" 6) "A" 30 "J"
                   None true) db).2 = [row] ∧
           balance_after row = 70.
Proof.
  cbv zeta.
  destruct (deduct_balance_commits_on_request (an_env "tx-2" 6) "A" 30 "J"
              None (db_one 100 PENDING None 0 []))
    as (Hq & _ & _ & Hok).
  split; [exact Hq |].
  destruct (Hok 70 eq_refl)
    as (u & row & Hu & Hnb & _ & _ & Htx & _ & _ & _ & Hba & _).
  exists u, row. repeat split; assumption.
Defined.

(** Account A holds 5 and the price is 10. *)
Lemma create_task_checks_but_never_bills_witness :
  let db := db_one 5 READY (Some "tok") 10 [deduct_row_J] in
  5 < price_per_task cfg10 ∧
  session.run
    (TaskService.create_task cfg10 (an_env "T2" 9) "A" RECAPTCHA_V2
       "sitekey" None None false) db
  = (inl (InsufficientBalanceError 10 5), db).
Proof.
  cbv zeta. split; [cbn; lia |].
  apply (proj1 (proj2 (proj2 (create_task_checks_but_never_bills cfg10
                                (an_env "T2" 9) "A" RECAPTCHA_V2 "sitekey"
                                None None false
                                (db_one 5 READY (Some "tok") 10
                                   [deduct_row_J]))))
           (a_user "A" 5) eq_refl).
  cbn. lia.
Defined.

(** The READY job J, billed 10, is written FAILED and keeps its cost. *)
Lemma status_writes_are_unconditional_witness :
  let db := db_one 90 READY (Some "tok") 10 [deduct_row_J] in
  ∃ t', (session.run
           (TaskService.fail_task (an_env "tx-9" 9) "J" "INTERNAL_ERROR" None)
           db).1 = inr t' ∧
        status t' = FAILED ∧ cost t' = 10 ∧ token t' = Some "tok".
Proof.
  cbv zeta.
  destruct (proj1 (proj2 (proj2 (status_writes_are_unconditional
                                   (an_env "tx-9" 9) "J" "INTERNAL_ERROR"
                                   None
                                   (db_one 90 READY (Some "tok") 10
                                      [deduct_row_J])))
                     (a_task "J" "A" READY (Some "tok") 10) eq_refl))
    as (t' & Hr & _ & Hst & _ & _ & _ & Htok & Hc & _).
  exists t'. repeat split; assumption.
Defined.

(** Account B asks for the refund of a job of account A, spelling its id
    with braces; the reader of ids here knows the one id J. *)
Lemma tasks_are_visible_to_their_owner_only_witness :
  let UUID_of := λ text : string,
    if bool_decide (text = "J") || bool_decide (text = "{J}")
    then Some "J" else None in
  session.run (TaskService.get_task "J" "B") db_two
    = (inl (EntityNotFoundError "Task" "J"), db_two) ∧
  session.run (report_incorrect_request UUID_of (an_env "tx-9" 9) "{J}" "B")
    db_two
    = (inr {| errorId := 12; errorCode := Some "ERROR_NO_SUCH_CAPTCHA_ID";
              response_status := None |}, db_two).
Proof.
  intros UUID_of.
  destruct (proj1 (tasks_are_visible_to_their_owner_only UUID_of
                     (an_env "tx-9" 9) "J" "B" "{J}" db_two))
    as (Hg & _ & Hr).
  - right. exists (a_task "J" "A" PENDING None 0).
    split; [reflexivity | discriminate].
  - split; [exact Hg | exact (Hr eq_refl)].
Defined.

(** A key with two entries and a budget of 3. *)
Lemma rate_gate_keeps_within_budget_witness :
  let store : gmap string (list RateLimiter.Entry) :=
    {[ "ratelimit:k" :=
         [{| RateLimiter.member := "a"; RateLimiter.score := 5%Q |};
          {| RateLimiter.member := "b"; RateLimiter.score := 7%Q |}] ]} in
  let out := RateLimiter.is_allowed "ratelimit" store 9%Q "c" "k" 3 60 in
  out.2.1.1 = true ∧ 0 ≤ out.2.1.2 ∧
  out.2.1.2 ≤ 3 - RateLimiter.ZCARD (RateLimiter.zset_of out.1 "ratelimit:k").
Proof.
  cbv zeta. split; [reflexivity |].
  destruct (rate_gate_keeps_within_budget "ratelimit"
              {[ "ratelimit:k" :=
                   [{| RateLimiter.member := "a"; RateLimiter.score := 5%Q |};
                    {| RateLimiter.member := "b"; RateLimiter.score := 7%Q |}] ]}
              9%Q "c" "k" 3 60) as (_ & _ & Hadm & _).
  destruct (Hadm eq_refl) as (H1 & H2 & _). split; assumption.
Defined.

(** The same key after [reset]. *)
Lemma reset_restores_the_budget_witness :
  let store : gmap string (list RateLimiter.Entry) :=
    {[ "ratelimit:k" :=
         [{| RateLimiter.member := "a"; RateLimiter.score := 5%Q |};
          {| RateLimiter.member := "b"; RateLimiter.score := 7%Q |}] ]} in
  (RateLimiter.is_allowed "ratelimit"
     (RateLimiter.reset "ratelimit" store "k") 9%Q "c" "k" 2 60).2
  = (true, 1, 0).
Proof.
  cbv zeta.
  apply (proj2 (proj2 (reset_restores_the_budget "ratelimit"
                         {[ "ratelimit:k" :=
                              [{| RateLimiter.member := "a";
                                  RateLimiter.score := 5%Q |};
                               {| RateLimiter.member := "b";
                                  RateLimiter.score := 7%Q |}] ]}
                         9%Q "c" "k" 2 60))).
  lia.
Defined.
